(** * AI-Solutions dashboard: the filtering and aggregation core of
    [dashboard.py], embedded in Rocq.

    The pandas frame the program works on is modelled as a schema (the list
    of column names) together with the list of its rows.  A row carries one
    optional cell per column the program reads; [None] is pandas' missing
    value (NaN, None or NaT).  A number is a 64-bit integer, whose
    arithmetic wraps around, or a binary64 float, whose arithmetic rounds:
    pandas gives a numeric column one of the two types.  Counts are Python
    integers; the conversion rate and the mean of the daily counts, which
    are ratios of counts, are kept as rationals.  Every operation that can
    raise in Python returns a [result]. *)

From Stdlib Require Import QArith Lqa Floats.
From stdpp Require Import base option list sorting strings gmap.

Set Warnings "-inexact-float".

(** ** Exceptions and results *)

Inductive exn :=
| FileNotFoundError
| KeyError (column : string)
| ValueError (what : string)
| ParserError (text : string)
| TypeError (what : string)
| IndexError.

Inductive result (A : Type) :=
| Ok (a : A)
| Err (e : exn).
Arguments Ok {A} a.
Arguments Err {A} e.

#[global] Instance result_ret : MRet result := fun _ a => Ok a.
#[global] Instance result_bind : MBind result := fun _ _ f m =>
  match m with
  | Ok a => f a
  | Err e => Err e
  end.

(** ** Numbers *)

(** A Python [int] (the literal 0 of the program), a [numpy.int64] or a
    [numpy.float64].  The cells of a numeric column are [Int64] or
    [Float64]; a float cell is never NaN, the missing cell [None] stands
    for it. *)
Inductive number :=
| PyInt (z : Z)
| Int64 (z : Z)
| Float64 (f : float).
Arguments PyInt z%_Z.
Arguments Int64 z%_Z.
Arguments Float64 f%_float.

(** The value an integer has after an operation on 64 bits. *)
Definition wrap64 (z : Z) : Z := ((z + 2 ^ 63) `mod` 2 ^ 64 - 2 ^ 63)%Z.

(** The float nearest to an integer. *)
Definition float_of_Z (z : Z) : float :=
  SF2Prim (binary_normalize prec emax z 0 false).

Definition to_float (n : number) : float :=
  match n with
  | PyInt z | Int64 z => float_of_Z z
  | Float64 f => f
  end.

(** The result of a float operation as a cell: NaN is the missing cell. *)
Definition float_cell (f : float) : option number :=
  if PrimFloat.is_nan f then None else Some (Float64 f).

(** A cell as a float operand: the missing cell is NaN. *)
Definition cell_float (c : option number) : float :=
  match c with
  | Some n => to_float n
  | None => nan
  end.

(** The integer a number is, if it is one. *)
Definition as_integer (n : number) : option Z :=
  match n with
  | PyInt z | Int64 z => Some z
  | Float64 _ => None
  end.

(** [a - b] on two numbers of a frame: on 64 bits when both are integers,
    in floats otherwise. *)
Definition sub_number (a b : number) : option number :=
  match as_integer a, as_integer b with
  | Some x, Some y => Some (Int64 (wrap64 (x - y)))
  | _, _ => float_cell (to_float a - to_float b)
  end.

(** ** Rows and frames *)

(** One row of the log table.  [T] is the type of the Timestamp cell: a
    string as [read_csv] delivers it, an instant (nanoseconds since the
    epoch) once [load_data] has converted the column.  The numbers of one
    column have one dtype: [read_csv] makes a column of integers an [int64]
    column, and a column that holds a float or a missing cell a [float64]
    column, in which it reads every number as a float. *)
Record Row {T : Type} := mkRow {
  Timestamp : option T;
  Date : option Z;
  Country : option string;
  Region : option string;
  City : option string;
  Product_Name : option string;
  Revenue : option number;
  Transaction_Amount : option number;
  Profit : option number;
  Job_Title : option string;
  Sales_Rep : option string;
  Service_Type : option string;
  Conversion_Status : option string;
  Page_Accessed : option string;
  Request_Category : option string;
  IP_Address : option string;
  Sales_Target : option number;
  Likes : option number
}.
Arguments Row T : clear implicits.
Arguments mkRow {T}.

Record DataFrame {T : Type} := mkDF {
  columns : list string;
  rows : list (Row T)
}.
Arguments DataFrame T : clear implicits.
Arguments mkDF {T}.

(** [pd.DataFrame()] *)
Definition blank {T} : DataFrame T := mkDF [] [].

(** [c in df.columns] *)
Definition has_column {T} (df : DataFrame T) (c : string) : bool :=
  bool_decide (c ∈ columns df).

(** [df.empty]: some axis has length 0. *)
Definition empty {T} (df : DataFrame T) : bool :=
  match rows df, columns df with
  | [], _ => true
  | _, [] => true
  | _, _ => false
  end.

(** [len(df)] *)
Definition len {T} (df : DataFrame T) : nat := length (rows df).

(** [df[c]]: the cells of column [c], a [KeyError] when the schema has no
    such column.  [cell] is the projection that reads the column in a row. *)
Definition getitem {T A} (df : DataFrame T) (c : string) (cell : Row T → A)
  : result (list A) :=
  if has_column df c then Ok (cell <$> rows df) else Err (KeyError c).

(** [df[mask]]: the rows whose mask entry is [True], in their order. *)
Fixpoint select_rows {A} (l : list A) (mask : list bool) : list A :=
  match l, mask with
  | x :: l', b :: mask' =>
      if b then x :: select_rows l' mask' else select_rows l' mask'
  | _, _ => []
  end.

Definition select {T} (df : DataFrame T) (mask : list bool) : DataFrame T :=
  mkDF (columns df) (select_rows (rows df) mask).

(** [series == v] on a string column: a missing cell equals nothing. *)
Definition eq_cell (v : string) (c : option string) : bool :=
  bool_decide (c = Some v).

(** [series >= t] and [series <= t] on instants: NaT compares false. *)
Definition ge_cell (t : Z) (c : option Z) : bool :=
  match c with Some x => bool_decide (t ≤ x)%Z | None => false end.
Definition le_cell (t : Z) (c : option Z) : bool :=
  match c with Some x => bool_decide (x ≤ t)%Z | None => false end.

(** ** Request parameters *)

(** [k in params and params[k]]: the value of a key that is present and not
    the empty string. *)
Definition given (params : gmap string string) (k : string) : option string :=
  match params !! k with
  | Some v => if bool_decide (v = "") then None else Some v
  | None => None
  end.

(** ** JSON values and result tables *)

Local Unset Elimination Schemes.
Inductive json :=
| JNum (q : Q)
| JFloat (f : float)
| JStr (s : string)
| JDate (d : Z)
| JArr (items : list json)
| JObj (fields : list (string * json)).
Local Set Elimination Schemes.
Arguments JFloat f%_float.

(** [jsonify] of the request's parameter dict. *)
Definition params_json (params : gmap string string) : json :=
  JObj (prod_map id JStr <$> map_to_list params).

(** The small frames the aggregations build: column names and rows of
    cells. *)
Record Table := mkTable {
  tcolumns : list string;
  trows : list (list json)
}.

(** [pd.DataFrame()] as an aggregation result. *)
Definition blank_table : Table := mkTable [] [].

(** [t.columns = names]: pandas refuses a list of another length. *)
Definition set_columns (t : Table) (names : list string) : result Table :=
  if bool_decide (length names = length (tcolumns t))
  then Ok (mkTable names (trows t))
  else Err (ValueError "Length mismatch").

(** [t.to_dict(orient='records')], then [jsonify]. *)
Definition to_records (t : Table) : json :=
  JArr ((fun r => JObj (zip (tcolumns t) r)) <$> trows t).

Definition JCount (n : nat) : json := JNum (inject_Z (Z.of_nat n)).

(** The exception of Flask's JSON encoder on a [numpy.int64]. *)
Definition int64_not_serializable : exn :=
  TypeError "Object of type int64 is not JSON serializable".

(** [jsonify] of a number: the encoder knows the Python [int] and the
    float ([numpy.float64] is a Python [float]) and refuses a
    [numpy.int64]. *)
Definition jsonify_number (n : number) : result json :=
  match n with
  | PyInt z => Ok (JNum (inject_Z z))
  | Int64 _ => Err int64_not_serializable
  | Float64 f => Ok (JFloat f)
  end.

(** A number in [to_dict(orient='records')]: a native Python number. *)
Definition box_native (n : number) : json :=
  match n with
  | PyInt z | Int64 z => JNum (inject_Z z)
  | Float64 f => JFloat f
  end.

(** ** Reductions over one column *)

(** The dtype of a numeric column is [int64] when every cell is an
    integer, [float64] otherwise (a missing cell makes the column a float
    column). *)
Definition int_cell (c : option number) : bool :=
  match c with
  | Some (Int64 _) | Some (PyInt _) => true
  | _ => false
  end.

Definition is_int64 (s : list (option number)) : bool := forallb int_cell s.

(** The sum of an [int64] column: each addition wraps around. *)
Definition sum_int64 (s : list (option number)) : Z :=
  foldl (fun acc c => match c with
                      | Some (Int64 z) | Some (PyInt z) => wrap64 (acc + z)
                      | _ => acc
                      end) 0%Z s.

(** The sum of a [float64] column: missing cells are skipped, the float
    additions are done from 0.0 in the order of the column. *)
Definition sum_float64 (s : list (option number)) : float :=
  foldl (fun acc c => match c with
                      | Some n => (acc + to_float n)%float
                      | None => acc
                      end) 0%float s.

(** [series.sum()] on a column of the given dtype; the empty sum is 0 of
    that dtype. *)
Definition sum_as (int64 : bool) (s : list (option number)) : number :=
  if int64 then Int64 (sum_int64 s) else Float64 (sum_float64 s).

(** [series.sum()] *)
Definition sum_cells (s : list (option number)) : number :=
  sum_as (is_int64 s) s.

(** [series > 0] and [series < 0]: NaN compares false. *)
Definition gt0_cell (c : option number) : bool :=
  match c with
  | Some (Int64 z) | Some (PyInt z) => bool_decide (0 < z)%Z
  | Some (Float64 f) => (0 <? f)%float
  | None => false
  end.
Definition lt0_cell (c : option number) : bool :=
  match c with
  | Some (Int64 z) | Some (PyInt z) => bool_decide (z < 0)%Z
  | Some (Float64 f) => (f <? 0)%float
  | None => false
  end.

(** Counting the values of a column in the order they are first met, as the
    hash table behind [value_counts], [nunique] and [groupby] does. *)
Fixpoint add_to_group {K A} `{EqDecision K} (k : K) (x : A)
    (acc : list (K * list A)) : list (K * list A) :=
  match acc with
  | [] => [(k, [x])]
  | (k', g) :: acc' =>
      if decide (k = k') then (k', g ++ [x]) :: acc'
      else (k', g) :: add_to_group k x acc'
  end.

(** The groups of [l] under [key]; rows whose key is missing belong to no
    group (pandas' [dropna=True]). *)
Definition groups {K A} `{EqDecision K} (key : A → option K) (l : list A)
  : list (K * list A) :=
  foldl (fun acc x => match key x with
                      | Some k => add_to_group k x acc
                      | None => acc
                      end) [] l.

(** Stable insertion sort, ascending for [leb]. *)
Fixpoint insert_sorted {A} (leb : A → A → bool) (x : A) (l : list A) : list A :=
  match l with
  | [] => [x]
  | y :: l' => if leb x y then x :: y :: l' else y :: insert_sorted leb x l'
  end.

Definition sort_by {A} (leb : A → A → bool) (l : list A) : list A :=
  foldr (insert_sorted leb) [] l.

(** [df.groupby(key)]: the groups, sorted by key. *)
Definition groupby {K A} `{EqDecision K} (leb : K → K → bool)
    (key : A → option K) (l : list A) : list (K * list A) :=
  sort_by (fun a b => leb a.1 b.1) (groups key l).

(** [series.value_counts()]: the distinct non-missing values with their
    counts, most frequent first, equal counts in first-met order. *)
Definition value_counts (s : list (option string)) : list (string * nat) :=
  sort_by (fun a b => bool_decide (b.2 ≤ a.2))
          (prod_map id length <$> groups id s).

(** [series.nunique()] *)
Definition nunique (s : list (option string)) : nat :=
  length (groups id s).

(** [series.idxmax()]: the label of the first largest entry; pandas raises
    on an empty series. *)
Fixpoint idxmax_from (best : string * nat) (l : list (string * nat)) : string :=
  match l with
  | [] => best.1
  | x :: l' => if bool_decide (best.2 < x.2) then idxmax_from x l'
               else idxmax_from best l'
  end.

Definition idxmax (vc : list (string * nat)) : result string :=
  match vc with
  | [] => Err (ValueError "attempt to get argmax of an empty sequence")
  | x :: l => Ok (idxmax_from x l)
  end.

(** [series.mean()] of a column of counts. *)
Definition mean_counts (l : list nat) : Q :=
  (inject_Z (Z.of_nat (sum_list l)) / inject_Z (Z.of_nat (length l)))%Q.

(** [value_counts().reset_index()] and [groupby(...)....reset_index()] as
    tables. *)
Definition counts_table (label : string) (vc : list (string * nat)) : Table :=
  mkTable [label; "count"] ((fun kv => [JStr kv.1; JCount kv.2]) <$> vc).

(** [t.sort_values(by=c, ascending=False)]: a [KeyError] when [t] has no
    column [c].  The cells of a column of sums are all rationals or all
    floats. *)
Definition cell_le (a b : option json) : bool :=
  match a, b with
  | Some (JNum x), Some (JNum y) => Qle_bool x y
  | Some (JFloat x), Some (JFloat y) => (x <=? y)%float
  | _, _ => true
  end.

Definition sort_values_desc (t : Table) (c : string) : result Table :=
  match list_find (fun n => n = c) (tcolumns t) with
  | Some (i, _) =>
      Ok (mkTable (tcolumns t)
            (sort_by (fun a b => cell_le (b !! i) (a !! i)) (trows t)))
  | None => Err (KeyError c)
  end.

Section Dashboard.

(** [pd.to_datetime] on one string: the instant it denotes, [None] when
    pandas cannot parse it. *)
Variable to_datetime : string → option Z.

(** [pd.to_datetime(series, errors="coerce")] on a column of strings: one
    cell per cell, the instant or NaT.  pandas reads the whole column in
    one format, so a cell is not converted on its own. *)
Variable to_datetime_coerce : list (option string) → list (option Z).

Definition to_datetime_raise (s : string) : result Z :=
  match to_datetime s with
  | Some t => Ok t
  | None => Err (ParserError s)
  end.

(** ** load_data *)

Definition ns_per_day : Z := 86400000000000.

(** [.dt.date]: the calendar day of an instant. *)
Definition date_of (t : Z) : Z := (t `div` ns_per_day)%Z.

(** [df["Revenue"] - df["Transaction_Amount"]] on one row: NaN as soon as
    one operand is missing. *)
Definition sub_cell (a b : option number) : option number :=
  match a, b with
  | Some x, Some y => sub_number x y
  | _, _ => None
  end.

(** [df[c] = ...] adds the column to the schema when it is new. *)
Definition add_column (c : string) (cols : list string) : list string :=
  if bool_decide (c ∈ cols) then cols else cols ++ [c].

(** The assignments of [load_data] seen from one row; [cols] is the schema
    [read_csv] found and [ts] the row's cell of the converted Timestamp
    column.  The constant 0 makes an integer column. *)
Definition load_row (cols : list string) (r : Row string) (ts : option Z) : Row Z :=
  {| Timestamp := ts;
     Date := date_of <$> ts;
     Country := r.(Country);
     Region := r.(Region);
     City := r.(City);
     Product_Name := r.(Product_Name);
     Revenue := r.(Revenue);
     Transaction_Amount := r.(Transaction_Amount);
     Profit := if bool_decide ("Revenue" ∈ cols) && bool_decide ("Transaction_Amount" ∈ cols)
               then sub_cell r.(Revenue) r.(Transaction_Amount)
               else Some (Int64 0);
     Job_Title := if bool_decide ("Job_Title" ∈ cols)
                  then Some (default "Unknown" r.(Job_Title))
                  else r.(Job_Title);
     Sales_Rep := r.(Sales_Rep);
     Service_Type := r.(Service_Type);
     Conversion_Status := r.(Conversion_Status);
     Page_Accessed := r.(Page_Accessed);
     Request_Category := r.(Request_Category);
     IP_Address := r.(IP_Address);
     Sales_Target := r.(Sales_Target);
     Likes := r.(Likes) |}.

(** [df.dropna(subset=["Date"])] *)
Definition dropna_Date (l : list (Row Z)) : list (Row Z) :=
  select_rows l ((fun r => bool_decide (is_Some r.(Date))) <$> l).

(** [csv] is what [read_csv] returns for the dataset file, [None] when the
    file does not exist.  The converted Timestamp column is assigned cell by
    cell to the rows. *)
Definition load_data (csv : option (DataFrame string)) : result (DataFrame Z) :=
  match csv with
  | None => Err FileNotFoundError
  | Some df =>
      s ← getitem df "Timestamp" Timestamp;
      Ok (mkDF (add_column "Date" (add_column "Profit" (columns df)))
               (dropna_Date (zip_with (load_row (columns df)) (rows df)
                                      (to_datetime_coerce s))))
  end.

(** The module-level [df]: the loaded table, or an empty frame when the
    file is missing. *)
Definition load_global (csv : option (DataFrame string)) : result (DataFrame Z) :=
  match load_data csv with
  | Err FileNotFoundError => Ok blank
  | r => r
  end.

(** ** filter_dataset *)

Definition filter_ge (dataframe : DataFrame Z) (v : string) : result (DataFrame Z) :=
  ts ← getitem dataframe "Timestamp" Timestamp;
  t ← to_datetime_raise v;
  Ok (select dataframe (ge_cell t <$> ts)).

Definition filter_le (dataframe : DataFrame Z) (v : string) : result (DataFrame Z) :=
  ts ← getitem dataframe "Timestamp" Timestamp;
  t ← to_datetime_raise v;
  Ok (select dataframe (le_cell t <$> ts)).

Definition filter_eq (dataframe : DataFrame Z) (c : string)
    (cell : Row Z → option string) (v : string) : result (DataFrame Z) :=
  s ← getitem dataframe c cell;
  Ok (select dataframe (eq_cell v <$> s)).

Definition filter_dataset (dataframe : DataFrame Z) (params : gmap string string)
  : result (DataFrame Z) :=
  if empty dataframe then Ok dataframe else
  dataframe ← match given params "start_date" with
              | Some v => filter_ge dataframe v
              | None => Ok dataframe
              end;
  dataframe ← match given params "end_date" with
              | Some v => filter_le dataframe v
              | None => Ok dataframe
              end;
  dataframe ← match given params "country" with
              | Some v => filter_eq dataframe "Country" Country v
              | None => Ok dataframe
              end;
  dataframe ← match given params "region" with
              | Some v => filter_eq dataframe "Region" Region v
              | None => Ok dataframe
              end;
  dataframe ← match given params "city" with
              | Some v => filter_eq dataframe "City" City v
              | None => Ok dataframe
              end;
  dataframe ← match given params "activity" with
              | Some v => filter_eq dataframe "Request_Category" Request_Category v
              | None => Ok dataframe
              end;
  dataframe ← match given params "job_title" with
              | Some v => if has_column dataframe "Job_Title"
                          then filter_eq dataframe "Job_Title" Job_Title v
                          else Ok dataframe
              | None => Ok dataframe
              end;
  dataframe ← match given params "sales_rep" with
              | Some v => filter_eq dataframe "Sales_Rep" Sales_Rep v
              | None => Ok dataframe
              end;
  Ok dataframe.

(** ** The API endpoints

    Each endpoint takes the module-level frame [df] and the request's
    parameters, and returns the JSON it sends or the exception it raises. *)

Definition no_data (message : string) (params : gmap string string) : json :=
  JObj [("message", JStr message);
        ("filters", params_json params);
        ("data_count", JNum 0)].

(** [filtered_df[c].value_counts().reset_index() if c in filtered_df.columns
    else pd.DataFrame()], followed by the renaming of the two columns. *)
Definition frequency_table (filtered_df : DataFrame Z) (c : string)
    (cell : Row Z → option string) (names : list string) : result Table :=
  t ← (if has_column filtered_df c
       then s ← getitem filtered_df c cell; Ok (counts_table c (value_counts s))
       else Ok blank_table);
  set_columns t names.

(** [filtered_df[filtered_df[c] > 0][c].sum() if c in filtered_df.columns
    else 0], for either comparison.  The selection keeps the dtype of the
    column; the [0] of the other branch is a Python [int]. *)
Definition sum_where (filtered_df : DataFrame Z) (c : string)
    (cell : Row Z → option number) (test : option number → bool) : result number :=
  if has_column filtered_df c
  then s ← getitem filtered_df c cell;
       s' ← getitem (select filtered_df (test <$> s)) c cell;
       Ok (sum_as (is_int64 s) s')
  else Ok (PyInt 0).

(** [filtered_df['Date'] = filtered_df['Timestamp'].dt.date] *)
Definition with_Date (r : Row Z) : Row Z :=
  {| Timestamp := r.(Timestamp);
     Date := date_of <$> r.(Timestamp);
     Country := r.(Country);
     Region := r.(Region);
     City := r.(City);
     Product_Name := r.(Product_Name);
     Revenue := r.(Revenue);
     Transaction_Amount := r.(Transaction_Amount);
     Profit := r.(Profit);
     Job_Title := r.(Job_Title);
     Sales_Rep := r.(Sales_Rep);
     Service_Type := r.(Service_Type);
     Conversion_Status := r.(Conversion_Status);
     Page_Accessed := r.(Page_Accessed);
     Request_Category := r.(Request_Category);
     IP_Address := r.(IP_Address);
     Sales_Target := r.(Sales_Target);
     Likes := r.(Likes) |}.

Definition assign_Date (filtered_df : DataFrame Z) : result (DataFrame Z) :=
  _ ← getitem filtered_df "Timestamp" Timestamp;
  Ok (mkDF (add_column "Date" (columns filtered_df)) (with_Date <$> rows filtered_df)).

(** [filtered_df.groupby('Date').size()]: the days present with their
    numbers of rows, in calendar order. *)
Definition daily_counts (filtered_df : DataFrame Z) : list (Z * nat) :=
  prod_map id length <$> groupby Z.leb Date (rows filtered_df).

Definition total_entries (df : DataFrame Z) (params : gmap string string) : result json :=
  filtered_df ← filter_dataset df params;
  Ok (JObj [("total_entries", JCount (len filtered_df))]).

Definition unique_visitors (df : DataFrame Z) (params : gmap string string) : result json :=
  filtered_df ← filter_dataset df params;
  visitors ← (if has_column filtered_df "IP_Address"
              then s ← getitem filtered_df "IP_Address" IP_Address; Ok (nunique s)
              else Ok 0%nat);
  Ok (JObj [("unique_visitors", JCount visitors)]).

Definition trends (df : DataFrame Z) (params : gmap string string) : result json :=
  filtered_df ← filter_dataset df params;
  filtered_df ← assign_Date filtered_df;
  let trends_df :=
    mkTable ["Date"; "Interactions"]
            ((fun kv => [JDate kv.1; JCount kv.2]) <$> daily_counts filtered_df) in
  Ok (to_records trends_df).

Definition service_requests (df : DataFrame Z) (params : gmap string string) : result json :=
  filtered_df ← filter_dataset df params;
  sr_df ← frequency_table filtered_df "Service_Type" Service_Type ["Service_Type"; "Count"];
  Ok (to_records sr_df).

(** The three sums are computed first; [jsonify] then encodes them. *)
Definition sales_metrics (df : DataFrame Z) (params : gmap string string) : result json :=
  filtered_df ← filter_dataset df params;
  if empty filtered_df
  then Ok (no_data "No sales metrics available for the selected filters" params)
  else
    total_sales ← sum_where filtered_df "Transaction_Amount" Transaction_Amount gt0_cell;
    total_profit ← sum_where filtered_df "Profit" Profit gt0_cell;
    total_loss ← sum_where filtered_df "Profit" Profit lt0_cell;
    total_sales ← jsonify_number total_sales;
    total_profit ← jsonify_number total_profit;
    total_loss ← jsonify_number total_loss;
    Ok (JObj [("total_sales", total_sales);
              ("total_profit", total_profit);
              ("total_loss", total_loss)]).

(** [filtered_df.groupby(key)[c].sum().reset_index()]: the sum of each
    group; the cells of a group have the dtype of the column. *)
Definition group_sums (filtered_df : DataFrame Z) (key : Row Z → option string)
    (cell : Row Z → option number) : list (string * number) :=
  prod_map id (fun g => sum_cells (cell <$> g))
    <$> groupby String.leb key (rows filtered_df).

Definition sums_table (label value : string) (gs : list (string * number)) : Table :=
  mkTable [label; value] ((fun kv => [JStr kv.1; box_native kv.2]) <$> gs).

Definition top_products (df : DataFrame Z) (params : gmap string string) : result json :=
  filtered_df ← filter_dataset df params;
  if empty filtered_df
  then Ok (no_data "No product data available for the selected filters" params)
  else
    top_sold ← frequency_table filtered_df "Product_Name" Product_Name
                 ["Product_Name"; "Sales_Count"];
    let top_liked :=
      if has_column filtered_df "Product_Name" && has_column filtered_df "Likes"
      then sums_table "Product_Name" "Likes" (group_sums filtered_df Product_Name Likes)
      else blank_table in
    top_liked ← sort_values_desc top_liked "Likes";
    Ok (JObj [("top_sold_products", to_records top_sold);
              ("top_liked_products", to_records top_liked)]).

Definition location_key (r : Row Z) : option (string * string * string * string) :=
  c ← r.(Country); g ← r.(Region); t ← r.(City); p ← r.(Product_Name);
  Some (c, g, t, p).

Definition pair_leb {A B} (ltA : A → A → bool) (eqA : A → A → bool)
    (leB : B → B → bool) (x y : A * B) : bool :=
  ltA x.1 y.1 || (eqA x.1 y.1 && leB x.2 y.2).

Definition pair_ltb {A B} (ltA : A → A → bool) (eqA : A → A → bool)
    (ltB : B → B → bool) (x y : A * B) : bool :=
  ltA x.1 y.1 || (eqA x.1 y.1 && ltB x.2 y.2).

Definition pair_eqb {A B} (eqA : A → A → bool) (eqB : B → B → bool)
    (x y : A * B) : bool :=
  eqA x.1 y.1 && eqB x.2 y.2.

(** The order of 4-tuples of strings: by the first component, then the
    second, and so on. *)
Definition location_leb : string * string * string * string →
                          string * string * string * string → bool :=
  pair_leb (pair_ltb (pair_ltb String.ltb String.eqb String.ltb)
                     (pair_eqb String.eqb String.eqb) String.ltb)
           (pair_eqb (pair_eqb String.eqb String.eqb) String.eqb)
           String.leb.

Definition customer_locations (df : DataFrame Z) (params : gmap string string) : result json :=
  filtered_df ← filter_dataset df params;
  if empty filtered_df
  then Ok (no_data "No customer location data available for the selected filters" params)
  else
    let location_df :=
      if forallb (has_column filtered_df) ["Country"; "Region"; "City"; "Product_Name"]
      then mkTable ["Country"; "Region"; "City"; "Product_Name"; "Customer_Count"]
             ((fun kv => let '(c, g, t, p) := kv.1 in
                         [JStr c; JStr g; JStr t; JStr p; JCount (length kv.2)])
                <$> groupby location_leb location_key (rows filtered_df))
      else blank_table in
    Ok (to_records location_df).

Definition page_access (df : DataFrame Z) (params : gmap string string) : result json :=
  filtered_df ← filter_dataset df params;
  if empty filtered_df
  then Ok (no_data "No page access data available for the selected filters" params)
  else
    page_df ← frequency_table filtered_df "Page_Accessed" Page_Accessed
                ["Page_Accessed"; "Access_Count"];
    Ok (to_records page_df).

Definition job_title_counts (df : DataFrame Z) (params : gmap string string) : result json :=
  filtered_df ← filter_dataset df params;
  if negb (has_column filtered_df "Job_Title") || empty filtered_df
  then Ok (JObj [("message", JStr "'Job_Title' column not found or no data after filtering");
                 ("filters", params_json params)])
  else
    s ← getitem filtered_df "Job_Title" Job_Title;
    job_counts ← set_columns (counts_table "Job_Title" (value_counts s)) ["Job_Title"; "Count"];
    Ok (to_records job_counts).

(** The conversion rate of [generate_insights]. *)
Definition conversion_rate (filtered_df : DataFrame Z) : result Q :=
  if has_column filtered_df "Conversion_Status" && bool_decide (0 < len filtered_df)
  then s ← getitem filtered_df "Conversion_Status" Conversion_Status;
       let converted := select filtered_df (eq_cell "Converted" <$> s) in
       Ok (inject_Z (Z.of_nat (len converted)) / inject_Z (Z.of_nat (len filtered_df)) * 100)%Q
  else Ok 0%Q.

Definition generate_insights (df : DataFrame Z) (params : gmap string string) : result json :=
  filtered_df ← filter_dataset df params;
  if empty filtered_df
  then Ok (no_data "No data available for the selected filters" params)
  else
    filtered_df ← assign_Date filtered_df;
    let daily := daily_counts filtered_df in
    let avg_daily_interactions :=
      match daily with [] => 0%Q | _ => mean_counts (daily.*2) end in
    top_service_request ←
      (if has_column filtered_df "Service_Type" && negb (empty filtered_df)
       then s ← getitem filtered_df "Service_Type" Service_Type; idxmax (value_counts s)
       else Ok "N/A");
    total_sales ← sum_where filtered_df "Transaction_Amount" Transaction_Amount gt0_cell;
    conversion_rate ← conversion_rate filtered_df;
    total_sales ← jsonify_number total_sales;
    Ok (JObj [("avg_daily_interactions", JNum avg_daily_interactions);
              ("top_service_request", JStr top_service_request);
              ("total_sales", total_sales);
              ("conversion_rate", JNum conversion_rate);
              ("message", JStr (if Qle_bool conversion_rate 50
                                then "Sales performance needs improvement"
                                else "Sales performance is strong"))]).

Definition sales_by_rep (df : DataFrame Z) (params : gmap string string) : result json :=
  filtered_df ← filter_dataset df params;
  if empty filtered_df
  then Ok (no_data "No data for selected filters" params)
  else
    let sales_data :=
      if has_column filtered_df "Sales_Rep" && has_column filtered_df "Transaction_Amount"
      then sums_table "Sales_Rep" "Transaction_Amount"
             (group_sums filtered_df Sales_Rep Transaction_Amount)
      else blank_table in
    sales_data ← set_columns sales_data ["Sales_Rep"; "Total_Sales"];
    Ok (to_records sales_data).

(** ** The per-representative metrics of the dashboard

    [member_data] is the slice of one sales representative; the dashboard
    computes the metrics only when the slice is not empty.  [None] in a
    metric is the float NaN. *)

Record Performance := mkPerformance {
  total_sales : number;
  total_revenue : number;
  sales_target : option number;
  achievement_pct : option number
}.

(** [series.isnull()] on one cell. *)
Definition isnull {A} (c : option A) : bool :=
  match c with
  | None => true
  | Some _ => false
  end.

(** [series.iloc[0]] *)
Definition iloc0 {A} (s : list A) : result A :=
  match s with
  | x :: _ => Ok x
  | [] => Err IndexError
  end.

(** Python's truth value of a number: everything but zero, NaN included. *)
Definition truthy (x : option number) : bool :=
  match x with
  | Some (PyInt z) | Some (Int64 z) => negb (z =? 0)%Z
  | Some (Float64 f) => negb (PrimFloat.is_zero f)
  | None => true
  end.

(** [total_revenue / sales_target * 100]: a float division, whatever the
    two numbers are. *)
Definition percent_of (total_revenue : number) (sales_target : option number)
  : option number :=
  float_cell (to_float total_revenue / cell_float sales_target * 100)%float.

Definition column_sum (member_data : DataFrame Z) (c : string)
    (cell : Row Z → option number) : result number :=
  if has_column member_data c
  then s ← getitem member_data c cell; Ok (sum_cells s)
  else Ok (PyInt 0).

Definition individual_performance (member_data : DataFrame Z) : result Performance :=
  total_sales ← column_sum member_data "Transaction_Amount" Transaction_Amount;
  total_revenue ← column_sum member_data "Revenue" Revenue;
  sales_target ←
    (if has_column member_data "Sales_Target"
        && negb (forallb isnull (Sales_Target <$> rows member_data))
     then s ← getitem member_data "Sales_Target" Sales_Target; iloc0 s
     else Ok (Some (PyInt 0)));
  let achievement_pct :=
    if truthy sales_target
    then percent_of total_revenue sales_target
    else Some (PyInt 0) in
  Ok (mkPerformance total_sales total_revenue sales_target achievement_pct).

(** ** The dashboard's own filter and key figures *)

(** [series.isin(values)]: a missing cell is in no list. *)
Definition isin_cell (values : list string) (c : option string) : bool :=
  match c with
  | Some v => bool_decide (v ∈ values)
  | None => false
  end.

(** The sidebar filter of [run_streamlit]: the calendar days from
    [start_date] to [end_date], and the selected countries when some are
    selected. *)
Definition dashboard_filter (df_streamlit : DataFrame Z) (start_date end_date : Z)
    (selected_country : list string) : result (DataFrame Z) :=
  d ← getitem df_streamlit "Date" Date;
  d' ← getitem df_streamlit "Date" Date;
  let filtered_df :=
    select df_streamlit (zip_with andb (ge_cell start_date <$> d) (le_cell end_date <$> d')) in
  match selected_country with
  | [] => Ok filtered_df
  | _ :: _ =>
      c ← getitem filtered_df "Country" Country;
      Ok (select filtered_df (isin_cell selected_country <$> c))
  end.

(** The team-member view: the slice of the representative [view_option]
    and, when the slice is not empty, its metrics. *)
Definition member_view (filtered_df : DataFrame Z) (view_option : string)
  : result (option Performance) :=
  member_data ← filter_eq filtered_df "Sales_Rep" Sales_Rep view_option;
  if empty member_data then Ok None
  else perf ← individual_performance member_data; Ok (Some perf).

(** The conversion rate of the overview. *)
Definition overview_conversion_rate (filtered_df : DataFrame Z) : result Q :=
  conversion_count ←
    (if has_column filtered_df "Conversion_Status"
     then s ← getitem filtered_df "Conversion_Status" Conversion_Status;
          Ok (len (select filtered_df (eq_cell "Converted" <$> s)))
     else Ok 0%nat);
  let total_entries := len filtered_df in
  Ok (if bool_decide (0 < total_entries)
      then (inject_Z (Z.of_nat conversion_count) / inject_Z (Z.of_nat total_entries) * 100)%Q
      else 0%Q).

(** [a < b] on two sums: on integers when both are, in floats otherwise. *)
Definition number_ltb (a b : number) : bool :=
  match a, b with
  | PyInt x, PyInt y | PyInt x, Int64 y | Int64 x, PyInt y | Int64 x, Int64 y =>
      (x <? y)%Z
  | _, _ => (to_float a <? to_float b)%float
  end.

(** [series.idxmax()] on a series of sums: the label of the first largest
    sum. *)
Fixpoint idxmax_sum_from (best : string * number) (l : list (string * number))
  : string :=
  match l with
  | [] => best.1
  | x :: l' => if number_ltb best.2 x.2 then idxmax_sum_from x l'
               else idxmax_sum_from best l'
  end.

Definition idxmax_sum (gs : list (string * number)) : result string :=
  match gs with
  | [] => Err (ValueError "attempt to get argmax of an empty sequence")
  | x :: l => Ok (idxmax_sum_from x l)
  end.

(** The top sales representative of the overview. *)
Definition top_rep (filtered_df : DataFrame Z) : result string :=
  if has_column filtered_df "Sales_Rep" && has_column filtered_df "Transaction_Amount"
     && negb (empty filtered_df)
  then idxmax_sum (group_sums filtered_df Sales_Rep Transaction_Amount)
  else Ok "N/A".

(** The top product and the top country of the overview: the group of
    column [c] with the largest revenue. *)
Definition top_by_revenue (filtered_df : DataFrame Z) (c : string)
    (key : Row Z → option string) : result string :=
  if has_column filtered_df c && negb (empty filtered_df)
  then if has_column filtered_df "Revenue"
       then idxmax_sum (group_sums filtered_df key Revenue)
       else Err (KeyError "Revenue")
  else Ok "N/A".

(** ** The filter as the specification words it

    A parameter that is given stands for one predicate on records; a
    parameter that is absent or empty stands for none. *)

Definition when {A} (o : option A) (P : A → Prop) : Prop :=
  match o with
  | Some a => P a
  | None => True
  end.

#[global] Instance when_dec {A} (o : option A) (P : A → Prop)
  `{∀ a, Decision (P a)} : Decision (when o P).
Proof. destruct o; simpl; apply _. Defined.

(** The record's timestamp is on or after, respectively on or before, the
    instant [t]. *)
Definition on_or_after (t : Z) (r : Row Z) : Prop :=
  match r.(Timestamp) with Some x => (t ≤ x)%Z | None => False end.
Definition on_or_before (t : Z) (r : Row Z) : Prop :=
  match r.(Timestamp) with Some x => (x ≤ t)%Z | None => False end.

#[global] Instance on_or_after_dec t r : Decision (on_or_after t r).
Proof. unfold on_or_after. destruct (Timestamp r); apply _. Defined.
#[global] Instance on_or_before_dec t r : Decision (on_or_before t r).
Proof. unfold on_or_before. destruct (Timestamp r); apply _. Defined.

(** The conjunction of the predicates of the given parameters. *)
Definition satisfies (params : gmap string string) (r : Row Z) : Prop :=
  when (given params "start_date" ≫= to_datetime) (fun t => on_or_after t r) ∧
  when (given params "end_date" ≫= to_datetime) (fun t => on_or_before t r) ∧
  when (given params "country") (fun v => r.(Country) = Some v) ∧
  when (given params "region") (fun v => r.(Region) = Some v) ∧
  when (given params "city") (fun v => r.(City) = Some v) ∧
  when (given params "activity") (fun v => r.(Request_Category) = Some v) ∧
  when (given params "job_title") (fun v => r.(Job_Title) = Some v) ∧
  when (given params "sales_rep") (fun v => r.(Sales_Rep) = Some v).

#[global] Instance satisfies_dec params r : Decision (satisfies params r).
Proof. unfold satisfies. apply _. Defined.

(** The recognized keys with the column each one reads. *)
Definition filter_keys : list (string * string) :=
  [("start_date", "Timestamp"); ("end_date", "Timestamp");
   ("country", "Country"); ("region", "Region"); ("city", "City");
   ("activity", "Request_Category"); ("job_title", "Job_Title");
   ("sales_rep", "Sales_Rep")].

(** Every given parameter names a column of the schema. *)
Definition schema_covers (cols : list string) (params : gmap string string) : Prop :=
  Forall (fun kc => is_Some (given params kc.1) → kc.2 ∈ cols) filter_keys.

(** Every given parameter other than the job title names a column of the
    schema. *)
Definition columns_given (cols : list string) (params : gmap string string) : Prop :=
  Forall (fun kc => kc.1 ≠ "job_title" → is_Some (given params kc.1) → kc.2 ∈ cols)
         filter_keys.

(** The date bounds that are given are well-formed dates. *)
Definition dates_parse (params : gmap string string) : Prop :=
  Forall (fun k => when (given params k) (fun v => is_Some (to_datetime v)))
         ["start_date"; "end_date"].

(** No recognized key is given. *)
Definition all_keys_empty (params : gmap string string) : Prop :=
  Forall (fun kc => given params kc.1 = None) filter_keys.

#[global] Instance schema_covers_dec cols params : Decision (schema_covers cols params).
Proof. unfold schema_covers. apply _. Defined.
#[global] Instance columns_given_dec cols params : Decision (columns_given cols params).
Proof. unfold columns_given. apply _. Defined.
#[global] Instance dates_parse_dec params : Decision (dates_parse params).
Proof. unfold dates_parse. apply _. Defined.
#[global] Instance all_keys_empty_dec params : Decision (all_keys_empty params).
Proof. unfold all_keys_empty. apply _. Defined.

(** ** What a run of [filter_dataset] checks and what it keeps *)

(** The exception a date bound raises, if any. *)
Definition check_date (cols : list string) (o : option string) : option exn :=
  match o with
  | Some v =>
      if bool_decide ("Timestamp" ∈ cols)
      then match to_datetime v with
           | Some _ => None
           | None => Some (ParserError v)
           end
      else Some (KeyError "Timestamp")
  | None => None
  end.

(** The exception an equality test on column [c] raises, if any. *)
Definition check_col (cols : list string) (o : option string) (c : string)
  : option exn :=
  match o with
  | Some _ => if bool_decide (c ∈ cols) then None else Some (KeyError c)
  | None => None
  end.

Definition guard {A} (chk : option exn) (a : A) : result A :=
  match chk with
  | Some e => Err e
  | None => Ok a
  end.

(** The first exception of a run on a frame with schema [cols]. *)
Definition or_else (a b : option exn) : option exn :=
  match a with
  | Some e => Some e
  | None => b
  end.

Definition checks (cols : list string) (params : gmap string string) : option exn :=
  or_else (check_date cols (given params "start_date"))
  (or_else (check_date cols (given params "end_date"))
  (or_else (check_col cols (given params "country") "Country")
  (or_else (check_col cols (given params "region") "Region")
  (or_else (check_col cols (given params "city") "City")
  (or_else (check_col cols (given params "activity") "Request_Category")
           (check_col cols (given params "sales_rep") "Sales_Rep")))))).

(** The rows a run keeps: as [satisfies], but the job title is tested only
    when the schema has the column. *)
Definition keeps (cols : list string) (params : gmap string string) (r : Row Z) : Prop :=
  when (given params "start_date" ≫= to_datetime) (fun t => on_or_after t r) ∧
  when (given params "end_date" ≫= to_datetime) (fun t => on_or_before t r) ∧
  when (given params "country") (fun v => r.(Country) = Some v) ∧
  when (given params "region") (fun v => r.(Region) = Some v) ∧
  when (given params "city") (fun v => r.(City) = Some v) ∧
  when (given params "activity") (fun v => r.(Request_Category) = Some v) ∧
  when (if bool_decide ("Job_Title" ∈ cols) then given params "job_title" else None)
       (fun v => r.(Job_Title) = Some v) ∧
  when (given params "sales_rep") (fun v => r.(Sales_Rep) = Some v).

#[global] Instance keeps_dec cols params r : Decision (keeps cols params r).
Proof. unfold keeps. apply _. Defined.

(** ** Sums as the specification words them *)

(** The values present in a column. *)
Definition present (s : list (option number)) : list number := omap id s.

(** The exact sum of the integers of a column. *)
Definition int_value (c : option number) : Z :=
  match c with
  | Some (Int64 z) | Some (PyInt z) => z
  | _ => 0%Z
  end.

Definition Zsum (l : list Z) : Z := foldr Z.add 0%Z l.

Definition int_total (s : list (option number)) : Z := Zsum (int_value <$> s).

(** The column [c] is in the schema and is an integer column. *)
Definition int64_column (df : DataFrame Z) (c : string)
    (cell : Row Z → option number) : bool :=
  has_column df c && is_int64 (cell <$> rows df).

(** The float sum of the cells of a float column that pass [test], as JSON;
    the Python 0 when the schema lacks the column. *)
Definition float_sum_where (df : DataFrame Z) (c : string)
    (cell : Row Z → option number) (test : option number → bool) : json :=
  if has_column df c
  then JFloat (sum_float64 (filter (fun x => test x) (cell <$> rows df)))
  else JNum 0.

(** A float column: every cell is a float or is missing. *)
Definition float_or_missing (c : option number) : bool :=
  match c with
  | Some (Float64 _) | None => true
  | _ => false
  end.

Definition is_float64 (s : list (option number)) : bool := forallb float_or_missing s.

(** The column [c] is a float column, or the schema lacks it. *)
Definition float64_or_absent (df : DataFrame Z) (c : string)
    (cell : Row Z → option number) : bool :=
  negb (has_column df c) || is_float64 (cell <$> rows df).

(** A JSON number that is at least 0, respectively at most 0. *)
Definition json_nonneg (j : json) : Prop :=
  match j with
  | JFloat f => (0 <=? f)%float = true
  | JNum q => (0 <= q)%Q
  | _ => False
  end.
Definition json_nonpos (j : json) : Prop :=
  match j with
  | JFloat f => (f <=? 0)%float = true
  | JNum q => (q <= 0)%Q
  | _ => False
  end.

(** The sign of a float, read on its IEEE 754 specification.
    [sf_signed sx x]: [x] is a zero, or a finite float or an infinity of
    sign [sx] ([false] is positive); [sf_strict sx x]: [x] is a finite
    float other than zero or an infinity, of sign [sx].  NaN is neither. *)
Definition sf_signed (sx : bool) (x : spec_float) : Prop :=
  match x with
  | S754_zero _ => True
  | S754_infinity s | S754_finite s _ _ => s = sx
  | S754_nan => False
  end.
Definition sf_strict (sx : bool) (x : spec_float) : Prop :=
  match x with
  | S754_infinity s | S754_finite s _ _ => s = sx
  | _ => False
  end.

(** A number that is zero. *)
Definition is_zero (n : number) : bool :=
  match n with
  | PyInt z | Int64 z => (z =? 0)%Z
  | Float64 f => PrimFloat.is_zero f
  end.

(** The first value present in a column, 0 when none is. *)
Definition first_present (s : list (option number)) : number :=
  default (PyInt 0) (head (present s)).

(** The number of records of [l] whose conversion status is exactly
    "Converted". *)
Definition converted (l : list (Row Z)) : nat :=
  length (filter (fun r => r.(Conversion_Status) = Some "Converted") l).

(** ** Groups as a reader describes them *)

(** The rows of [l] whose key is [k], in their order. *)
Definition members {K A} `{EqDecision K} (key : A → option K) (k : K) (l : list A)
  : list A :=
  filter (fun x => key x = Some k) l.

(** The number of cells of a column that hold the value [v]. *)
Definition occurrences (v : string) (s : list (option string)) : nat :=
  length (filter (fun c => c = Some v) s).

(** ** The answer for an empty subset, as the specification words it *)

(** The shape [{message, filters, data_count: 0}]. *)
Definition degraded (params : gmap string string) (j : json) : Prop :=
  ∃ message, j = no_data message params.

Definition metric_endpoints : list (DataFrame Z → gmap string string → result json) :=
  [total_entries; unique_visitors; trends; service_requests; sales_metrics;
   top_products; customer_locations; page_access; job_title_counts;
   generate_insights; sales_by_rep].

(** ** The profit column, as the specification words it *)

(** Revenue minus transaction amount when both values are present, 0
    otherwise. *)
Definition profit_or_zero {T} (r : Row T) : option number :=
  match r.(Revenue), r.(Transaction_Amount) with
  | Some revenue, Some amount => sub_number revenue amount
  | _, _ => Some (Int64 0)
  end.

(** ** Sample tables *)

(** A parser that knows the first three days of the epoch. *)
Definition sample_to_datetime (s : string) : option Z :=
  if String.eqb s "1970-01-01" then Some 0%Z
  else if String.eqb s "1970-01-02" then Some ns_per_day
  else if String.eqb s "1970-01-03" then Some (2 * ns_per_day)%Z
  else None.

(** The sample timestamps are all written year-month-day, the one format
    pandas reads the column in; a cell in another form becomes NaT. *)
Definition sample_to_datetime_coerce (s : list (option string)) : list (option Z) :=
  (fun c => c ≫= sample_to_datetime) <$> s.

(** An integer cell and a float cell. *)
Definition i64 (z : Z) : option number := Some (Int64 z).
Definition f64 (f : float) : option number := Some (Float64 f).
Arguments i64 z%_Z.
Arguments f64 f%_float.

(** A row with the cells the samples use; every other cell is missing. *)
Definition entry {T} (timestamp : option T) (date : option Z)
    (country sales_rep service_type : option string)
    (revenue amount profit target : option number) : Row T :=
  {| Timestamp := timestamp; Date := date;
     Country := country; Region := None; City := None; Product_Name := None;
     Revenue := revenue; Transaction_Amount := amount; Profit := profit;
     Job_Title := None; Sales_Rep := sales_rep; Service_Type := service_type;
     Conversion_Status := None; Page_Accessed := None; Request_Category := None;
     IP_Address := None; Sales_Target := target; Likes := None |}.

(** Three sales whose amounts the file writes with a decimal point, as
    the file has them and as [load_data] returns them. *)
Definition csv_sales : DataFrame string :=
  mkDF ["Timestamp"; "Revenue"; "Transaction_Amount"]
       [entry (Some "1970-01-01") None None None None (f64 150) (f64 100) None None;
        entry (Some "1970-01-02") None None None None (f64 (-10)) (f64 (-20)) None None;
        entry (Some "1970-01-03") None None None None (f64 70) (f64 50) None None].

Definition df_sales : DataFrame Z :=
  mkDF ["Timestamp"; "Revenue"; "Transaction_Amount"; "Profit"; "Date"]
       [entry (Some 0%Z) (Some 0%Z) None None None (f64 150) (f64 100) (f64 50) None;
        entry (Some ns_per_day) (Some 1%Z) None None None
              (f64 (-10)) (f64 (-20)) (f64 10) None;
        entry (Some (2 * ns_per_day)%Z) (Some 2%Z) None None None
              (f64 70) (f64 50) (f64 20) None].

(** The same three sales written as integers. *)
Definition csv_sales_int : DataFrame string :=
  mkDF ["Timestamp"; "Revenue"; "Transaction_Amount"]
       [entry (Some "1970-01-01") None None None None (i64 150) (i64 100) None None;
        entry (Some "1970-01-02") None None None None (i64 (-10)) (i64 (-20)) None None;
        entry (Some "1970-01-03") None None None None (i64 70) (i64 50) None None].

Definition df_sales_int : DataFrame Z :=
  mkDF ["Timestamp"; "Revenue"; "Transaction_Amount"; "Profit"; "Date"]
       [entry (Some 0%Z) (Some 0%Z) None None None (i64 150) (i64 100) (i64 50) None;
        entry (Some ns_per_day) (Some 1%Z) None None None
              (i64 (-10)) (i64 (-20)) (i64 10) None;
        entry (Some (2 * ns_per_day)%Z) (Some 2%Z) None None None
              (i64 70) (i64 50) (i64 20) None].

(** A sale whose revenue cell is empty in the file. *)
Definition csv_gap : DataFrame string :=
  mkDF ["Timestamp"; "Revenue"; "Transaction_Amount"]
       [entry (Some "1970-01-01") None None None None None (i64 100) None None].

Definition df_gap : DataFrame Z :=
  mkDF ["Timestamp"; "Revenue"; "Transaction_Amount"; "Profit"; "Date"]
       [entry (Some 0%Z) (Some 0%Z) None None None None (i64 100) None None].

(** A file with timestamps only, and the store loaded from it. *)
Definition csv_bare : DataFrame string :=
  mkDF ["Timestamp"]
       [entry (Some "1970-01-01") None None None None None None None None].

Definition df_bare : DataFrame Z :=
  mkDF ["Timestamp"; "Profit"; "Date"]
       [entry (Some 0%Z) (Some 0%Z) None None None None None (i64 0) None].

(** A store whose service type is recorded for no row. *)
Definition df_no_service : DataFrame Z :=
  mkDF ["Timestamp"; "Service_Type"; "Profit"; "Date"]
       [entry (Some 0%Z) (Some 0%Z) None None None None None (i64 0) None].

(** Three visits from two countries. *)
Definition df_visits : DataFrame Z :=
  mkDF ["Timestamp"; "Country"; "Profit"; "Date"]
       [entry (Some 0%Z) (Some 0%Z) (Some "X") None None None None (i64 0) None;
        entry (Some ns_per_day) (Some 1%Z) (Some "Y") None None None None (i64 0) None;
        entry (Some (2 * ns_per_day)%Z) (Some 2%Z) (Some "X") None None None None
              (i64 0) None].

(** The slice of one representative: the target is missing on the first
    row and 500 on the second. *)
Definition member_rows : DataFrame Z :=
  mkDF ["Timestamp"; "Revenue"; "Transaction_Amount"; "Sales_Rep"; "Sales_Target";
        "Profit"; "Date"]
       [entry (Some 0%Z) (Some 0%Z) None (Some "Amber Lame") None
              (f64 100) (f64 80) (f64 20) None;
        entry (Some ns_per_day) (Some 1%Z) None (Some "Amber Lame") None
              (f64 200) (f64 150) (f64 50) (f64 500)].

(** One sale with a representative and one without. *)
Definition df_unassigned : DataFrame Z :=
  mkDF ["Timestamp"; "Revenue"; "Transaction_Amount"; "Sales_Rep"; "Profit"; "Date"]
       [entry (Some 0%Z) (Some 0%Z) None (Some "Amber Lame") None
              (i64 10) (i64 7) (i64 3) None;
        entry (Some ns_per_day) (Some 1%Z) None None None
              (i64 9) (i64 5) (i64 4) None].

(** Three sales of two representatives, with amounts that are no binary
    fractions. *)
Definition df_tenths : DataFrame Z :=
  mkDF ["Timestamp"; "Transaction_Amount"; "Sales_Rep"; "Profit"; "Date"]
       [entry (Some 0%Z) (Some 0%Z) None (Some "Amber Lame") None
              None (f64 0.1) (i64 0) None;
        entry (Some ns_per_day) (Some 1%Z) None (Some "Bo Chen") None
              None (f64 0.2) (i64 0) None;
        entry (Some (2 * ns_per_day)%Z) (Some 2%Z) None (Some "Bo Chen") None
              None (f64 0.3) (i64 0) None].

(** Three sales of two representatives in two countries, in integers. *)
Definition df_two_reps : DataFrame Z :=
  mkDF ["Timestamp"; "Country"; "Revenue"; "Transaction_Amount"; "Sales_Rep";
        "Profit"; "Date"]
       [entry (Some 0%Z) (Some 0%Z) (Some "X") (Some "Amber Lame") None
              (i64 10) (i64 7) (i64 3) None;
        entry (Some ns_per_day) (Some 1%Z) (Some "Y") (Some "Bo Chen") None
              (i64 9) (i64 5) (i64 4) None;
        entry (Some (2 * ns_per_day)%Z) (Some 2%Z) (Some "Y") (Some "Bo Chen") None
              (i64 8) (i64 6) (i64 2) None].

(** The visits from country "X". *)
Definition df_visits_X : DataFrame Z :=
  mkDF ["Timestamp"; "Country"; "Profit"; "Date"]
       [entry (Some 0%Z) (Some 0%Z) (Some "X") None None None None (i64 0) None;
        entry (Some (2 * ns_per_day)%Z) (Some 2%Z) (Some "X") None None None None
              (i64 0) None].

(** The row [r] with the job title [title]. *)
Definition titled {T} (title : option string) (r : Row T) : Row T :=
  {| Timestamp := r.(Timestamp); Date := r.(Date);
     Country := r.(Country); Region := r.(Region); City := r.(City);
     Product_Name := r.(Product_Name);
     Revenue := r.(Revenue); Transaction_Amount := r.(Transaction_Amount);
     Profit := r.(Profit);
     Job_Title := title; Sales_Rep := r.(Sales_Rep);
     Service_Type := r.(Service_Type);
     Conversion_Status := r.(Conversion_Status);
     Page_Accessed := r.(Page_Accessed);
     Request_Category := r.(Request_Category);
     IP_Address := r.(IP_Address); Sales_Target := r.(Sales_Target);
     Likes := r.(Likes) |}.

(** Three job requests as the file has them, the second with a timestamp
    that is no date and the third without a title, and as [load_data]
    returns them. *)
Definition csv_jobs : DataFrame string :=
  mkDF ["Timestamp"; "Job_Title"]
       [titled (Some "Engineer")
               (entry (Some "1970-01-01") None None None None None None None None);
        titled (Some "Analyst")
               (entry (Some "yesterday") None None None None None None None None);
        titled None
               (entry (Some "1970-01-02") None None None None None None None None)].

Definition df_jobs : DataFrame Z :=
  mkDF ["Timestamp"; "Job_Title"; "Profit"; "Date"]
       [titled (Some "Engineer")
               (entry (Some 0%Z) (Some 0%Z) None None None None None (i64 0) None);
        titled (Some "Unknown")
               (entry (Some ns_per_day) (Some 1%Z) None None None None None
                      (i64 0) None)].

(** The slice of one representative whose first row carries the target. *)
Definition member_rows_target : DataFrame Z :=
  mkDF ["Timestamp"; "Revenue"; "Transaction_Amount"; "Sales_Rep"; "Sales_Target";
        "Profit"; "Date"]
       [entry (Some 0%Z) (Some 0%Z) None (Some "Amber Lame") None
              (f64 100) (f64 80) (f64 20) (f64 500);
        entry (Some ns_per_day) (Some 1%Z) None (Some "Amber Lame") None
              (f64 200) (f64 150) (f64 50) None].

(** ** Facts about masks and filters *)

Lemma select_rows_fmap {A} (f : A → bool) (l : list A) :
  select_rows l (f <$> l) = filter (fun x => f x) l.
Proof.
  induction l as [|x l IH]; [done|].
  cbn [fmap list_fmap select_rows]. rewrite filter_cons.
  fold (fmap f l). rewrite IH.
  destruct (f x); destruct (decide _) as [H|H]; simpl in *; done.
Qed.

Lemma select_rows_fmap2 {A B} (f : B → bool) (g : A → B) (l : list A) :
  select_rows l (f <$> (g <$> l)) = filter (fun x => f (g x)) l.
Proof. rewrite <- list_fmap_compose. apply (select_rows_fmap (f ∘ g)). Qed.

Lemma filter_all {A} (P : A → Prop) `{∀ x, Decision (P x)} (l : list A) :
  (∀ x, x ∈ l → P x) → filter P l = l.
Proof.
  induction l as [|x l IH]; intros Hall; [done|].
  rewrite filter_cons_True by (apply Hall; left).
  f_equal. apply IH. intros y Hy. apply Hall. by right.
Qed.

Lemma filter_iff_in {A} (P Q : A → Prop) `{∀ x, Decision (P x)}
    `{∀ x, Decision (Q x)} (l : list A) :
  (∀ x, x ∈ l → P x ↔ Q x) → filter P l = filter Q l.
Proof.
  induction l as [|x l IH]; intros Hl; [done|]. rewrite !filter_cons.
  rewrite IH by (intros y Hy; apply Hl; by right).
  destruct (decide (P x)) as [HP|HP], (decide (Q x)) as [HQ|HQ]; try done.
  - by apply Hl in HP; [|left].
  - by apply Hl in HQ; [|left].
Qed.

Lemma filter_idem {A} (P : A → Prop) `{∀ x, Decision (P x)} (l : list A) :
  filter P (filter P l) = filter P l.
Proof. apply filter_all. intros x Hx. by apply list_elem_of_filter in Hx as [? _]. Qed.

Lemma frame_eta {T} (df : DataFrame T) : mkDF (columns df) (rows df) = df.
Proof. by destruct df. Qed.

(** ** The stages of [filter_dataset] *)

Lemma stage_eq (dataframe : DataFrame Z) (o : option string) (c : string)
    (cell : Row Z → option string) :
  match o with
  | Some v => filter_eq dataframe c cell v
  | None => Ok dataframe
  end
  = guard (check_col (columns dataframe) o c)
          (mkDF (columns dataframe)
                (filter (fun r => when o (fun v => cell r = Some v)) (rows dataframe))).
Proof.
  destruct o as [v|]; simpl.
  - unfold filter_eq, getitem, has_column.
    case_bool_decide; [|done]. simpl. unfold select. do 2 f_equal.
    rewrite select_rows_fmap2. apply list_filter_iff. intros r.
    unfold eq_cell. by rewrite bool_decide_spec.
  - rewrite filter_all by done. by rewrite frame_eta.
Qed.

Lemma stage_ge (dataframe : DataFrame Z) (o : option string) :
  match o with
  | Some v => filter_ge dataframe v
  | None => Ok dataframe
  end
  = guard (check_date (columns dataframe) o)
          (mkDF (columns dataframe)
                (filter (fun r => when (o ≫= to_datetime) (fun t => on_or_after t r))
                        (rows dataframe))).
Proof.
  destruct o as [v|]; simpl.
  - unfold filter_ge, getitem, has_column, to_datetime_raise.
    case_bool_decide; [|done]. simpl.
    destruct (to_datetime v) as [t|]; [|done]. simpl. unfold select. do 2 f_equal.
    rewrite select_rows_fmap2. apply list_filter_iff. intros r.
    unfold ge_cell, on_or_after. destruct (Timestamp r); simpl; [|done].
    by rewrite bool_decide_spec.
  - rewrite filter_all by done. by rewrite frame_eta.
Qed.

Lemma stage_le (dataframe : DataFrame Z) (o : option string) :
  match o with
  | Some v => filter_le dataframe v
  | None => Ok dataframe
  end
  = guard (check_date (columns dataframe) o)
          (mkDF (columns dataframe)
                (filter (fun r => when (o ≫= to_datetime) (fun t => on_or_before t r))
                        (rows dataframe))).
Proof.
  destruct o as [v|]; simpl.
  - unfold filter_le, getitem, has_column, to_datetime_raise.
    case_bool_decide; [|done]. simpl.
    destruct (to_datetime v) as [t|]; [|done]. simpl. unfold select. do 2 f_equal.
    rewrite select_rows_fmap2. apply list_filter_iff. intros r.
    unfold le_cell, on_or_before. destruct (Timestamp r); simpl; [|done].
    by rewrite bool_decide_spec.
  - rewrite filter_all by done. by rewrite frame_eta.
Qed.

Lemma stage_job (dataframe : DataFrame Z) (o : option string) :
  match o with
  | Some v => if has_column dataframe "Job_Title"
              then filter_eq dataframe "Job_Title" Job_Title v
              else Ok dataframe
  | None => Ok dataframe
  end
  = Ok (mkDF (columns dataframe)
             (filter (fun r => when (if bool_decide ("Job_Title" ∈ columns dataframe)
                                     then o else None)
                                    (fun v => r.(Job_Title) = Some v))
                     (rows dataframe))).
Proof.
  unfold has_column. case_bool_decide as Hc.
  - rewrite (stage_eq dataframe o "Job_Title" Job_Title).
    unfold check_col. destruct o; [|done]. by rewrite bool_decide_true.
  - rewrite filter_all by done. rewrite frame_eta. by destruct o.
Qed.

(** A run of [filter_dataset] in one equation: an empty frame is returned
    as it is; otherwise the run raises the first exception of [checks], or
    keeps the rows of [keeps] under the same schema. *)
Lemma filter_dataset_unfold (df : DataFrame Z) (params : gmap string string) :
  filter_dataset df params
  = if empty df then Ok df
    else guard (checks (columns df) params)
               (mkDF (columns df) (filter (keeps (columns df) params) (rows df))).
Proof.
  unfold filter_dataset, checks. destruct (empty df); [done|].
  rewrite stage_ge.
  destruct (check_date _ (given params "start_date")) as [e|]; [done|].
  cbn [guard mbind result_bind]. rewrite stage_le. cbn [columns rows].
  destruct (check_date _ (given params "end_date")) as [e|]; [done|].
  cbn [guard mbind result_bind]. rewrite stage_eq. cbn [columns rows].
  destruct (check_col _ (given params "country") _) as [e|]; [done|].
  cbn [guard mbind result_bind]. rewrite stage_eq. cbn [columns rows].
  destruct (check_col _ (given params "region") _) as [e|]; [done|].
  cbn [guard mbind result_bind]. rewrite stage_eq. cbn [columns rows].
  destruct (check_col _ (given params "city") _) as [e|]; [done|].
  cbn [guard mbind result_bind]. rewrite stage_eq. cbn [columns rows].
  destruct (check_col _ (given params "activity") _) as [e|]; [done|].
  cbn [guard mbind result_bind]. rewrite stage_job. cbn [columns rows].
  cbn [guard mbind result_bind]. rewrite stage_eq. cbn [columns rows].
  destruct (check_col _ (given params "sales_rep") _) as [e|]; [done|].
  cbn. do 2 f_equal. rewrite !list_filter_filter.
  apply list_filter_iff. intros r. unfold keeps. tauto.
Qed.

Ltac key_listed :=
  unfold filter_keys; repeat first [apply list_elem_of_here | apply list_elem_of_further].

Lemma schema_covers_at cols params k c :
  schema_covers cols params → (k, c) ∈ filter_keys →
  is_Some (given params k) → c ∈ cols.
Proof. intros Hs Hk. by apply (proj1 (Forall_forall _ _) Hs (k, c)). Qed.

Lemma dates_parse_at params k v :
  dates_parse params → k ∈ ["start_date"; "end_date"] →
  given params k = Some v → is_Some (to_datetime v).
Proof.
  intros Hd Hk Hg. apply (proj1 (Forall_forall _ _) Hd k) in Hk.
  by rewrite Hg in Hk.
Qed.

Lemma all_keys_empty_at params k c :
  all_keys_empty params → (k, c) ∈ filter_keys → given params k = None.
Proof. intros He Hk. by apply (proj1 (Forall_forall _ _) He (k, c)). Qed.

Lemma covered_given cols params k c :
  schema_covers cols params → (k, c) ∈ filter_keys →
  given params k = None ∨ c ∈ cols.
Proof.
  intros Hs Hk. destruct (given params k) eqn:Hg; [right|by left].
  apply (schema_covers_at _ _ k c Hs Hk). by rewrite Hg.
Qed.

Lemma check_col_covered cols params k c :
  schema_covers cols params → (k, c) ∈ filter_keys →
  check_col cols (given params k) c = None.
Proof.
  intros Hs Hk. destruct (covered_given cols params k c Hs Hk) as [->|Hc]; [done|].
  unfold check_col. destruct (given params k); [|done]. by rewrite bool_decide_true.
Qed.

Lemma check_date_covered cols params k :
  schema_covers cols params → dates_parse params →
  (k, "Timestamp") ∈ filter_keys → k ∈ ["start_date"; "end_date"] →
  check_date cols (given params k) = None.
Proof.
  intros Hs Hd Hk Hk'. unfold check_date.
  destruct (given params k) as [v|] eqn:Hg; [|done].
  rewrite bool_decide_true by (apply (schema_covers_at _ _ k _ Hs Hk); by rewrite Hg).
  by destruct (dates_parse_at _ k v Hd Hk' Hg) as [t ->].
Qed.

Lemma checks_covered cols params :
  schema_covers cols params → dates_parse params → checks cols params = None.
Proof.
  intros Hs Hd. unfold checks.
  rewrite !(check_date_covered cols params) by (done || key_listed).
  rewrite !(check_col_covered cols params) by (done || key_listed).
  done.
Qed.

Lemma keeps_covered cols params r :
  schema_covers cols params → keeps cols params r ↔ satisfies params r.
Proof.
  intros Hs. unfold keeps, satisfies.
  destruct (covered_given cols params "job_title" "Job_Title" Hs) as [->|Hc];
    [key_listed| |].
  - by destruct (bool_decide _).
  - by rewrite bool_decide_true.
Qed.

Lemma given_none_satisfies params r :
  all_keys_empty params → satisfies params r.
Proof.
  intros He. unfold satisfies.
  pose proof (all_keys_empty_at params) as Hk.
  rewrite (Hk "start_date" "Timestamp"), (Hk "end_date" "Timestamp"),
    (Hk "country" "Country"), (Hk "region" "Region"), (Hk "city" "City"),
    (Hk "activity" "Request_Category"), (Hk "job_title" "Job_Title"),
    (Hk "sales_rep" "Sales_Rep") by (done || key_listed).
  done.
Qed.

Lemma all_keys_empty_covers cols params :
  all_keys_empty params → schema_covers cols params ∧ dates_parse params.
Proof.
  intros He. split.
  - apply Forall_forall. intros [k c] Hk [v Hv]. cbn [fst snd] in *.
    by rewrite (all_keys_empty_at params k c He Hk) in Hv.
  - pose proof (all_keys_empty_at params) as Hk.
    repeat apply Forall_cons_2; [..|apply Forall_nil_2].
    + by rewrite (Hk "start_date" "Timestamp") by (done || key_listed).
    + by rewrite (Hk "end_date" "Timestamp") by (done || key_listed).
Qed.

Lemma covers_nil_empty params :
  schema_covers [] params → all_keys_empty params.
Proof.
  intros Hs. apply Forall_forall. intros [k c] Hk. cbn [fst].
  destruct (covered_given [] params k c Hs Hk) as [?|Hc]; [done|].
  by apply elem_of_nil in Hc.
Qed.

(** ** The filter engine *)

Lemma schema_covers_given cols params :
  schema_covers cols params → columns_given cols params.
Proof. intros Hs. eapply Forall_impl; [exact Hs|]. intros kc Hkc _. exact Hkc. Qed.

Lemma columns_given_at cols params k c :
  columns_given cols params → (k, c) ∈ filter_keys → k ≠ "job_title" →
  given params k = None ∨ c ∈ cols.
Proof.
  intros Hs Hk Hj. destruct (given params k) eqn:Hg; [right|by left].
  apply (proj1 (Forall_forall _ _) Hs (k, c) Hk Hj). cbn. by rewrite Hg.
Qed.

Lemma check_col_given cols params k c :
  columns_given cols params → (k, c) ∈ filter_keys → k ≠ "job_title" →
  check_col cols (given params k) c = None.
Proof.
  intros Hs Hk Hj. destruct (columns_given_at cols params k c Hs Hk Hj) as [->|Hc]; [done|].
  unfold check_col. destruct (given params k); [|done]. by rewrite bool_decide_true.
Qed.

Lemma check_date_given cols params k :
  columns_given cols params → dates_parse params →
  (k, "Timestamp") ∈ filter_keys → k ∈ ["start_date"; "end_date"] → k ≠ "job_title" →
  check_date cols (given params k) = None.
Proof.
  intros Hs Hd Hk Hk' Hj. unfold check_date.
  destruct (given params k) as [v|] eqn:Hg; [|done].
  destruct (columns_given_at cols params k _ Hs Hk Hj) as [Hn|Hc]; [congruence|].
  rewrite bool_decide_true by done.
  by destruct (dates_parse_at _ k v Hd Hk' Hg) as [t ->].
Qed.

Lemma checks_given cols params :
  columns_given cols params → dates_parse params → checks cols params = None.
Proof.
  intros Hs Hd. unfold checks.
  rewrite !(check_date_given cols params) by (done || key_listed).
  rewrite !(check_col_given cols params) by (done || key_listed).
  done.
Qed.

Lemma keeps_nil_given params r : columns_given [] params → keeps [] params r.
Proof.
  intros Hs. unfold keeps.
  assert (∀ k c, (k, c) ∈ filter_keys → k ≠ "job_title" → given params k = None) as Hk.
  { intros k c Hin Hj. destruct (columns_given_at [] params k c Hs Hin Hj) as [?|Hc]; [done|].
    by apply elem_of_nil in Hc. }
  rewrite (Hk "start_date" "Timestamp"), (Hk "end_date" "Timestamp"),
    (Hk "country" "Country"), (Hk "region" "Region"), (Hk "city" "City"),
    (Hk "activity" "Request_Category"), (Hk "sales_rep" "Sales_Rep")
    by (done || key_listed).
  by rewrite bool_decide_false by apply not_elem_of_nil.
Qed.

Lemma keeps_satisfies cols params r :
  "Job_Title" ∈ cols ∨ given params "job_title" = None →
  keeps cols params r ↔ satisfies params r.
Proof.
  intros [Hc|Hn]; unfold keeps, satisfies.
  - by rewrite bool_decide_true.
  - rewrite Hn. by destruct (bool_decide _).
Qed.

(** C2, as the code has it: on a store whose schema has the columns that
    the given parameters other than the job title name, and with
    well-formed date bounds, [filter_dataset] returns the records that
    satisfy the conjunction of the predicates of the given parameters
    (inclusive bounds on the timestamp, exact string equality on country,
    region, city, request category and sales representative), where the
    job title is tested only when the schema has a job-title column; the
    records keep their relative order.  With a job-title column, or
    without a job-title parameter, that is the conjunction of all the
    predicates. *)
Theorem filter_dataset_conjunction (df : DataFrame Z) (params : gmap string string) :
  columns_given (columns df) params →
  dates_parse params →
  ∃ subset,
    filter_dataset df params = Ok subset ∧
    columns subset = columns df ∧
    rows subset = filter (keeps (columns df) params) (rows df) ∧
    (∀ r, r ∈ rows subset ↔ r ∈ rows df ∧ keeps (columns df) params r) ∧
    sublist (rows subset) (rows df) ∧
    ("Job_Title" ∈ columns df ∨ given params "job_title" = None →
     ∀ r, r ∈ rows subset ↔ r ∈ rows df ∧ satisfies params r).
Proof.
  intros Hs Hd.
  assert (∃ subset, filter_dataset df params = Ok subset ∧
            columns subset = columns df ∧
            rows subset = filter (keeps (columns df) params) (rows df))
    as (subset & Hrun & Hc & Hr).
  { rewrite filter_dataset_unfold. destruct (empty df) eqn:He.
    - exists df. split_and!; [done..|].
      symmetry. apply filter_all. intros r Hin.
      unfold empty in He. destruct (rows df) as [|r0 l].
      + by apply elem_of_nil in Hin.
      + destruct (columns df); [|done]. by apply keeps_nil_given.
    - rewrite checks_given by done. eexists. by split_and!. }
  exists subset. split_and!; try done.
  - intros r. rewrite Hr, list_elem_of_filter. tauto.
  - rewrite Hr. apply sublist_filter.
  - intros Hj r. rewrite Hr, list_elem_of_filter, (keeps_satisfies _ _ _ Hj). tauto.
Qed.

(** C9: filtering the result of [filter_dataset] again with the same
    parameters changes nothing (a run that raises, raises the same exception
    both times), and parameters with no key given return the store as it
    is. *)
Theorem filter_dataset_idempotent_identity (df : DataFrame Z) (params : gmap string string) :
  (filter_dataset df params ≫= (fun subset => filter_dataset subset params))
    = filter_dataset df params ∧
  (all_keys_empty params → filter_dataset df params = Ok df).
Proof.
  split.
  - rewrite (filter_dataset_unfold df). destruct (empty df) eqn:He.
    + cbn [mbind result_bind]. by rewrite filter_dataset_unfold, He.
    + destruct (checks (columns df) params) eqn:Hc; [done|].
      cbn [guard mbind result_bind]. rewrite filter_dataset_unfold.
      cbn [columns rows]. rewrite Hc. cbn [guard].
      rewrite filter_idem by apply _.
      by match goal with |- (if ?b then _ else _) = _ => destruct b end.
  - intros Hk. destruct (all_keys_empty_covers (columns df) params Hk) as [Hs Hd].
    rewrite filter_dataset_unfold. destruct (empty df); [done|].
    rewrite checks_covered by done. cbn [guard].
    rewrite filter_all; [by rewrite frame_eta|].
    intros r _. by apply keeps_covered, given_none_satisfies.
Qed.

(** X7: the job-title test is skipped on a schema without the column. *)
Lemma filter_dataset_job_title_ignored (df : DataFrame Z) (params : gmap string string) :
  "Job_Title" ∉ columns df →
  filter_dataset df params = filter_dataset df (delete "job_title" params).
Proof.
  intros Hj. rewrite !filter_dataset_unfold.
  assert (∀ k, k ≠ "job_title" →
            given (delete "job_title" params) k = given params k) as Hg.
  { intros k Hk. unfold given. by rewrite lookup_delete_ne. }
  destruct (empty df); [done|]. unfold checks. rewrite !Hg by done. f_equal.
  f_equal. apply list_filter_iff. intros r. unfold keeps.
  rewrite (Hg "start_date"), (Hg "end_date"), (Hg "country"), (Hg "region"),
    (Hg "city"), (Hg "activity"), (Hg "sales_rep") by done.
  by rewrite bool_decide_false.
Qed.

Lemma or_else_is_Some a b : is_Some a ∨ is_Some b → is_Some (or_else a b).
Proof. intros [[e ->]|[e ->]]; [by eexists|]. destruct a; by eexists. Qed.

Lemma check_col_missing cols o c :
  is_Some o → c ∉ cols → is_Some (check_col cols o c).
Proof. intros [v ->] Hc. unfold check_col. rewrite bool_decide_false by done. by eexists. Qed.

Lemma check_date_missing cols o :
  is_Some o → "Timestamp" ∉ cols → is_Some (check_date cols o).
Proof. intros [v ->] Hc. unfold check_date. rewrite bool_decide_false by done. by eexists. Qed.

Ltac find_check :=
  first [ by apply check_col_missing
        | by apply check_date_missing
        | apply or_else_is_Some;
          first [ by (left; first [apply check_col_missing | apply check_date_missing])
                | right; find_check ] ].

(** A test on a column the schema lacks raises, whatever the key other than
    the job title. *)
Lemma filter_dataset_missing_column (df : DataFrame Z) (params : gmap string string) k c :
  (k, c) ∈ filter_keys → k ≠ "job_title" →
  empty df = false → is_Some (given params k) → c ∉ columns df →
  ∃ e, filter_dataset df params = Err e.
Proof.
  intros Hk Hj He Hv Hc. rewrite filter_dataset_unfold, He.
  assert (is_Some (checks (columns df) params)) as [e ->]; [|by exists e].
  unfold filter_keys in Hk. unfold checks.
  repeat (apply elem_of_cons in Hk as [[= -> ->]|Hk]; [try done; find_check|]).
  by apply elem_of_nil in Hk.
Qed.

(** ** Sums *)

Lemma fmap_filter_cell {A B} (cell : A → B) (test : B → bool) (l : list A) :
  cell <$> filter (fun r => test (cell r)) l = filter (fun c => test c) (cell <$> l).
Proof.
  induction l as [|x l IH]; [done|].
  rewrite fmap_cons, !filter_cons.
  destruct (decide (test (cell x))); by rewrite ?fmap_cons, IH.
Qed.

Lemma sum_where_unfold (filtered_df : DataFrame Z) c cell test :
  sum_where filtered_df c cell test
  = Ok (if has_column filtered_df c
        then sum_as (is_int64 (cell <$> rows filtered_df))
                    (filter (fun x => test x) (cell <$> rows filtered_df))
        else PyInt 0).
Proof.
  unfold sum_where, getitem. destruct (has_column filtered_df c) eqn:Hc; [|done].
  cbn [mbind result_bind]. unfold has_column in *. cbn [select columns rows].
  rewrite Hc. cbn [mbind result_bind]. f_equal.
  by rewrite select_rows_fmap2, fmap_filter_cell.
Qed.

(** ** The conversion rate *)



(** ** Endpoints on an empty subset *)

(** C4, as the code has it: when the filtered subset has no rows, the
    sales-metrics, top-products, customer-locations, page-access, insights
    and per-representative endpoints answer with the shape
    [{message, filters, data_count: 0}]; the total entry count and the
    unique-visitor count answer with their own shape holding 0; the daily
    trend and the service-request table answer with no rows when the schema
    has the column they read. *)
Theorem empty_subset_responses (df : DataFrame Z) (params : gmap string string)
    (filtered_df : DataFrame Z) :
  filter_dataset df params = Ok filtered_df →
  rows filtered_df = [] →
  (∀ endpoint,
     endpoint ∈ [sales_metrics; top_products; customer_locations; page_access;
                 generate_insights; sales_by_rep] →
     ∃ j, endpoint df params = Ok j ∧ degraded params j) ∧
  total_entries df params = Ok (JObj [("total_entries", JNum 0)]) ∧
  unique_visitors df params = Ok (JObj [("unique_visitors", JNum 0)]) ∧
  ("Timestamp" ∈ columns filtered_df → trends df params = Ok (JArr [])) ∧
  ("Service_Type" ∈ columns filtered_df → service_requests df params = Ok (JArr [])).
Proof.
  intros Hf Hr.
  assert (empty filtered_df = true) as He by (unfold empty; by rewrite Hr).
  split_and!.
  - intros endpoint Hin.
    repeat (apply elem_of_cons in Hin as [->|Hin]);
      [..|by apply elem_of_nil in Hin];
      eexists; (split; [|by eexists]).
    + unfold sales_metrics. rewrite Hf. cbn [mbind result_bind]. by rewrite He.
    + unfold top_products. rewrite Hf. cbn [mbind result_bind]. by rewrite He.
    + unfold customer_locations. rewrite Hf. cbn [mbind result_bind]. by rewrite He.
    + unfold page_access. rewrite Hf. cbn [mbind result_bind]. by rewrite He.
    + unfold generate_insights. rewrite Hf. cbn [mbind result_bind]. by rewrite He.
    + unfold sales_by_rep. rewrite Hf. cbn [mbind result_bind]. by rewrite He.
  - unfold total_entries, len. rewrite Hf. cbn [mbind result_bind]. by rewrite Hr.
  - unfold unique_visitors, getitem. rewrite Hf. cbn [mbind result_bind].
    destruct (has_column filtered_df "IP_Address"); [|done].
    by rewrite Hr.
  - intros Hc. unfold trends, assign_Date, getitem, has_column.
    rewrite Hf. cbn [mbind result_bind]. rewrite bool_decide_true by done.
    cbn [mbind result_bind]. unfold daily_counts. cbn [rows]. by rewrite Hr.
  - intros Hc. unfold service_requests, frequency_table, getitem, has_column.
    rewrite Hf. cbn [mbind result_bind]. rewrite bool_decide_true by done.
    cbn [mbind result_bind]. by rewrite Hr.
Qed.

(** The job-title table answers an empty subset, or a schema without the
    column, with a message and the filters only. *)
Lemma job_title_counts_no_data (df : DataFrame Z) (params : gmap string string)
    (filtered_df : DataFrame Z) :
  filter_dataset df params = Ok filtered_df →
  "Job_Title" ∉ columns filtered_df ∨ rows filtered_df = [] →
  job_title_counts df params
  = Ok (JObj [("message", JStr "'Job_Title' column not found or no data after filtering");
              ("filters", params_json params)]).
Proof.
  intros Hf Hno. unfold job_title_counts. rewrite Hf. cbn [mbind result_bind].
  destruct Hno as [Hc|Hr].
  - unfold has_column. by rewrite bool_decide_false.
  - unfold empty. rewrite Hr. by rewrite orb_true_r.
Qed.

(** ** Loading *)

Lemma load_data_rows (csv : DataFrame string) (df : DataFrame Z) :
  load_data (Some csv) = Ok df →
  "Timestamp" ∈ columns csv ∧
  columns df = add_column "Date" (add_column "Profit" (columns csv)) ∧
  rows df = filter (fun r => is_Some r.(Date))
                   (zip_with (load_row (columns csv)) (rows csv)
                             (to_datetime_coerce (Timestamp <$> rows csv))).
Proof.
  unfold load_data, getitem, has_column. case_bool_decide as Hc; [|done].
  cbn [mbind result_bind]. intros [= <-]. split_and!; [done..|].
  cbn [rows]. unfold dropna_Date.
  rewrite (select_rows_fmap (fun r => bool_decide (is_Some (Date r)))).
  apply list_filter_iff. intros r. by rewrite bool_decide_spec.
Qed.

(** X2: every loaded record has a timestamp, and its date is the day of it. *)
Lemma load_data_timestamps (csv : DataFrame string) (df : DataFrame Z) :
  load_data (Some csv) = Ok df →
  ∀ r, r ∈ rows df → ∃ t, r.(Timestamp) = Some t ∧ r.(Date) = Some (date_of t).
Proof.
  intros Hl r Hr. apply load_data_rows in Hl as (_ & _ & Hrows).
  rewrite Hrows in Hr. apply list_elem_of_filter in Hr as [[d Hd] Hr].
  apply elem_of_zip_with in Hr as (raw & ts & -> & _ & _).
  unfold load_row in *. cbn [Date Timestamp] in *.
  destruct ts as [t|]; [|done]. by exists t.
Qed.

Lemma load_data_profit_rows (csv : DataFrame string) (df : DataFrame Z) :
  load_data (Some csv) = Ok df →
  ∀ r, r ∈ rows df →
    r.(Profit) = if bool_decide ("Revenue" ∈ columns csv)
                    && bool_decide ("Transaction_Amount" ∈ columns csv)
                 then sub_cell r.(Revenue) r.(Transaction_Amount)
                 else Some (Int64 0).
Proof.
  intros Hl r Hr. apply load_data_rows in Hl as (_ & _ & Hrows).
  rewrite Hrows in Hr. apply list_elem_of_filter in Hr as [_ Hr].
  by apply elem_of_zip_with in Hr as (raw & ts & -> & _ & _).
Qed.

(** ** Individual performance *)

Lemma column_sum_unfold (member_data : DataFrame Z) c cell :
  column_sum member_data c cell
  = Ok (if has_column member_data c then sum_cells (cell <$> rows member_data)
        else PyInt 0).
Proof.
  unfold column_sum, getitem. by destruct (has_column member_data c).
Qed.

(** X16: when the first row of the slice carries the target, the metrics are the
    two column sums, that target, and revenue over target as a percentage
    (0 for a target of 0). *)
Lemma individual_performance_first_row (member_data : DataFrame Z) r l t :
  rows member_data = r :: l →
  r.(Sales_Target) = Some t →
  "Sales_Target" ∈ columns member_data →
  ∃ perf,
    individual_performance member_data = Ok perf ∧
    perf.(total_sales) = (if has_column member_data "Transaction_Amount"
                          then sum_cells (Transaction_Amount <$> rows member_data)
                          else PyInt 0) ∧
    perf.(total_revenue) = (if has_column member_data "Revenue"
                            then sum_cells (Revenue <$> rows member_data)
                            else PyInt 0) ∧
    perf.(sales_target) = Some (first_present (Sales_Target <$> rows member_data)) ∧
    perf.(sales_target) = Some t ∧
    perf.(achievement_pct)
      = if is_zero t then Some (PyInt 0)
        else float_cell (to_float perf.(total_revenue) / to_float t * 100)%float.
Proof.
  intros Hr Ht Hc. unfold individual_performance.
  rewrite !column_sum_unfold. cbn [mbind result_bind].
  assert (has_column member_data "Sales_Target" = true) as Hcol
    by (unfold has_column; by rewrite bool_decide_true).
  unfold getitem. rewrite Hcol, Hr. cbn [fmap list_fmap forallb]. rewrite Ht.
  cbn [isnull andb negb mbind result_bind iloc0].
  eexists. split; [done|]. cbn [total_sales total_revenue sales_target achievement_pct].
  split_and!; try done.
  unfold truthy, is_zero, percent_of, cell_float.
  destruct t as [z|z|f];
    [by destruct (z =? 0)%Z..|by destruct (PrimFloat.is_zero f)].
Qed.

(** X17: without the column, or with no target on any row, the target and the
    achievement are 0. *)
Lemma individual_performance_no_target (member_data : DataFrame Z) :
  "Sales_Target" ∉ columns member_data
  ∨ Forall (fun r => r.(Sales_Target) = None) (rows member_data) →
  ∃ perf,
    individual_performance member_data = Ok perf ∧
    perf.(sales_target) = Some (PyInt 0) ∧ perf.(achievement_pct) = Some (PyInt 0).
Proof.
  intros Hno. unfold individual_performance.
  rewrite !column_sum_unfold. cbn [mbind result_bind].
  assert (has_column member_data "Sales_Target"
          && negb (forallb isnull (Sales_Target <$> rows member_data)) = false) as ->.
  { destruct Hno as [Hc|Hall].
    - unfold has_column. by rewrite bool_decide_false.
    - apply andb_false_iff. right. apply negb_false_iff.
      apply Is_true_true, forallb_True, Forall_fmap. eapply Forall_impl; [done|].
      intros r Hr. simpl. by rewrite Hr. }
  cbn [mbind result_bind]. eexists. by split_and!.
Qed.

(** ** Frequency tables on a schema without the column *)

(** The fallback frame has no columns, so renaming its columns to two names
    raises. *)
Lemma frequency_table_missing_column (filtered_df : DataFrame Z) c cell a b :
  c ∉ columns filtered_df →
  frequency_table filtered_df c cell [a; b] = Err (ValueError "Length mismatch").
Proof.
  intros Hc. unfold frequency_table, has_column. by rewrite bool_decide_false.
Qed.

Lemma service_requests_missing_column (df : DataFrame Z) (params : gmap string string)
    (filtered_df : DataFrame Z) :
  filter_dataset df params = Ok filtered_df →
  "Service_Type" ∉ columns filtered_df →
  service_requests df params = Err (ValueError "Length mismatch").
Proof.
  intros Hf Hc. unfold service_requests. rewrite Hf. cbn [mbind result_bind].
  by rewrite frequency_table_missing_column.
Qed.

(** ** Groups and sorting *)

Section Groups.
Context {K A : Type} `{EqDecision K} (key : A → option K).

Lemma members_snoc_same l x k :
  key x = Some k → members key k (l ++ [x]) = members key k l ++ [x].
Proof.
  intros Hk. unfold members. rewrite filter_app. f_equal.
  by rewrite filter_cons_True.
Qed.

Lemma members_snoc_other l x k :
  key x ≠ Some k → members key k (l ++ [x]) = members key k l.
Proof.
  intros Hk. unfold members. rewrite filter_app, filter_cons_False by done.
  apply app_nil_r.
Qed.

Lemma add_to_group_step l x k ks :
  key x = Some k → NoDup ks → (k ∉ ks → members key k l = []) →
  add_to_group k x ((fun k' => (k', members key k' l)) <$> ks)
  = (fun k' => (k', members key k' (l ++ [x])))
      <$> (if decide (k ∈ ks) then ks else ks ++ [k]).
Proof.
  intros Hk Hnd Hnew. induction ks as [|k0 ks IH].
  - rewrite decide_False by apply not_elem_of_nil. simpl.
    rewrite members_snoc_same, Hnew by (done || apply not_elem_of_nil). done.
  - apply NoDup_cons in Hnd as [Hk0 Hnd]. cbn [fmap list_fmap add_to_group].
    destruct (decide (k = k0)) as [->|Hne].
    + rewrite decide_True by apply list_elem_of_here. cbn [fmap list_fmap].
      rewrite members_snoc_same by done. f_equal.
      apply list_fmap_ext. intros _ k' Hk'%list_elem_of_lookup_2.
      rewrite members_snoc_other; [done|]. rewrite Hk. intros [= ->]. done.
    + fold (fmap (fun k' => (k', members key k' l)) ks). rewrite IH; [|done|].
      * destruct (decide (k ∈ ks)) as [Hin|Hin].
        -- rewrite decide_True by (by apply list_elem_of_further).
           cbn [fmap list_fmap].
           by rewrite (members_snoc_other l x k0) by (rewrite Hk; congruence).
        -- rewrite decide_False by (intros [?|?]%elem_of_cons; done).
           cbn [app fmap list_fmap].
           by rewrite (members_snoc_other l x k0) by (rewrite Hk; congruence).
      * intros Hin. apply Hnew. intros [?|?]%elem_of_cons; done.
Qed.

Lemma groups_snoc l x :
  groups key (l ++ [x])
  = match key x with
    | Some k => add_to_group k x (groups key l)
    | None => groups key l
    end.
Proof. unfold groups. by rewrite foldl_snoc. Qed.

(** The groups are the keys met, each once and in the order they are first
    met, each with the rows that carry it. *)
Lemma groups_spec l :
  ∃ ks, NoDup ks ∧ (∀ k, k ∈ ks ↔ ∃ x, x ∈ l ∧ key x = Some k) ∧
        groups key l = (fun k => (k, members key k l)) <$> ks.
Proof.
  induction l as [|x l (ks & Hnd & Hks & Hg)] using rev_ind.
  - exists []. split_and!; [constructor| |done].
    intros k. split; [by intros ?%elem_of_nil|]. by intros (x & ?%elem_of_nil & _).
  - rewrite groups_snoc, Hg. destruct (key x) as [k|] eqn:Hk.
    + exists (if decide (k ∈ ks) then ks else ks ++ [k]). split_and!.
      * destruct (decide _) as [Hin|Hin]; [done|].
        apply NoDup_app. split_and!; [done| |apply NoDup_singleton].
        intros k' Hk' ->%list_elem_of_singleton. done.
      * intros k'. destruct (decide (k ∈ ks)) as [Hin|Hin].
        -- rewrite Hks. split.
           ++ intros (y & Hy & Hky). exists y. split; [|done].
              apply elem_of_app. by left.
           ++ intros (y & Hy & Hky).
              apply elem_of_app in Hy as [Hy| ->%list_elem_of_singleton]; [eauto|].
              assert (k' = k) as -> by congruence. by apply Hks.
        -- rewrite elem_of_app, list_elem_of_singleton, Hks. split.
           ++ intros [(y & Hy & Hky)| ->]; [exists y|exists x];
                (split; [apply elem_of_app|done]);
                [by left|right; by apply list_elem_of_singleton].
           ++ intros (y & Hy & Hky).
              apply elem_of_app in Hy as [Hy| ->%list_elem_of_singleton];
                [left; eauto|right; congruence].
      * apply add_to_group_step; [done..|].
        intros Hin.
        destruct (members key k l) as [|y m] eqn:Hm; [done|]. exfalso.
        assert (y ∈ members key k l) as Hy by (rewrite Hm; left).
        apply list_elem_of_filter in Hy as [Hy1 Hy2]. apply Hin, Hks. eauto.
    + exists ks. split_and!; [done| |].
      * intros k. rewrite Hks. split.
        -- intros (y & Hy & Hky). exists y. split; [|done].
           apply elem_of_app. by left.
        -- intros (y & Hy & Hky).
           apply elem_of_app in Hy as [Hy| ->%list_elem_of_singleton];
             [eauto|congruence].
      * apply list_fmap_ext. intros _ k _.
        rewrite members_snoc_other; [done|]. by rewrite Hk.
Qed.
End Groups.

Section Sorting.
Context {A : Type} (leb : A → A → bool).

Lemma insert_sorted_Permutation x l : insert_sorted leb x l ≡ₚ x :: l.
Proof.
  induction l as [|y l IH]; simpl; [done|].
  destruct (leb x y); [done|]. rewrite IH. apply Permutation_swap.
Qed.

Lemma sort_by_Permutation l : sort_by leb l ≡ₚ l.
Proof.
  induction l as [|x l IH]; simpl; [done|].
  fold (sort_by leb l). by rewrite insert_sorted_Permutation, IH.
Qed.

(** Any two elements compare one way or the other. *)
Hypothesis leb_total : ∀ a b, leb a b = false → leb b a = true.

Lemma insert_sorted_HdRel x y l :
  leb y x = true → HdRel (fun a b => leb a b = true) y l →
  HdRel (fun a b => leb a b = true) y (insert_sorted leb x l).
Proof.
  intros Hyx Hl. destruct l as [|z l]; simpl; [by constructor|].
  destruct (leb x z); constructor; [done|]. by inv Hl.
Qed.

Lemma insert_sorted_Sorted x l :
  Sorted (fun a b => leb a b = true) l →
  Sorted (fun a b => leb a b = true) (insert_sorted leb x l).
Proof.
  induction 1 as [|y l Hl IH Hy]; simpl; [by repeat constructor|].
  destruct (leb x y) eqn:Hxy.
  - constructor; [by constructor|by constructor].
  - constructor; [done|]. apply insert_sorted_HdRel; [by apply leb_total|done].
Qed.

Lemma sort_by_Sorted l : Sorted (fun a b => leb a b = true) (sort_by leb l).
Proof.
  induction l as [|x l IH]; simpl; [constructor|].
  by apply insert_sorted_Sorted.
Qed.
End Sorting.

Section GroupFacts.
Context {K A : Type} `{EqDecision K} (key : A → option K) (leb : K → K → bool).

(** [groupby] lists every key met exactly once, each with the rows that
    carry it. *)
Lemma groupby_keys_NoDup l : NoDup (groupby leb key l).*1.
Proof.
  unfold groupby. rewrite sort_by_Permutation.
  destruct (groups_spec key l) as (ks & Hnd & _ & ->).
  rewrite <- list_fmap_compose, (list_fmap_ext _ id ks) by done.
  by rewrite list_fmap_id.
Qed.

Lemma groupby_elem l k g :
  (k, g) ∈ groupby leb key l
  ↔ (∃ x, x ∈ l ∧ key x = Some k) ∧ g = members key k l.
Proof.
  unfold groupby. rewrite sort_by_Permutation.
  destruct (groups_spec key l) as (ks & _ & Hks & ->).
  rewrite list_elem_of_fmap. split.
  - intros (k' & [= -> ->] & Hk'). split; [by apply Hks|done].
  - intros [Hk ->]. exists k. split; [done|]. by apply Hks.
Qed.

Lemma groupby_keys_Sorted l :
  (∀ a b, leb a b = false → leb b a = true) →
  Sorted (fun a b => leb a b = true) (groupby leb key l).*1.
Proof.
  intros Htotal. unfold groupby.
  eapply Sorted_fmap; [|apply sort_by_Sorted]; [by intros [] []|].
  intros [] []. apply Htotal.
Qed.

(** The sizes of the groups add up to the number of rows that have a key. *)
Lemma add_to_group_sizes k x (acc : list (K * list A)) :
  sum_list_with (fun kg => length kg.2) (add_to_group k x acc)
  = S (sum_list_with (fun kg => length kg.2) acc).
Proof.
  induction acc as [|[k' g] acc IH]; simpl; [done|].
  destruct (decide (k = k')); simpl.
  - rewrite length_app. simpl. lia.
  - rewrite IH. lia.
Qed.

Lemma groups_sizes l :
  sum_list_with (fun kg => length kg.2) (groups key l)
  = length (filter (fun x => is_Some (key x)) l).
Proof.
  induction l as [|x l IH] using rev_ind; [done|].
  rewrite groups_snoc, filter_app, length_app, filter_cons.
  destruct (key x) as [k|].
  - rewrite add_to_group_sizes, IH.
    rewrite decide_True by (by eexists). simpl. lia.
  - rewrite IH. rewrite decide_False by (by intros [? ?]). simpl. lia.
Qed.

Lemma groupby_sizes l :
  sum_list_with (fun kg => length kg.2) (groupby leb key l)
  = length (filter (fun x => is_Some (key x)) l).
Proof. unfold groupby. by rewrite sort_by_Permutation, groups_sizes. Qed.
End GroupFacts.

(** ** Sums of integer columns *)

Lemma wrap64_add_l (a b : Z) : wrap64 (wrap64 a + b) = wrap64 (a + b).
Proof.
  unfold wrap64. f_equal.
  replace ((a + 2 ^ 63) `mod` 2 ^ 64 - 2 ^ 63 + b + 2 ^ 63)%Z
    with ((a + 2 ^ 63) `mod` 2 ^ 64 + b)%Z by lia.
  rewrite Zplus_mod_idemp_l. f_equal. lia.
Qed.

Lemma wrap64_add_r (a b : Z) : wrap64 (a + wrap64 b) = wrap64 (a + b).
Proof. by rewrite Z.add_comm, wrap64_add_l, Z.add_comm. Qed.

Lemma int_total_app (s1 s2 : list (option number)) :
  int_total (s1 ++ s2) = (int_total s1 + int_total s2)%Z.
Proof.
  unfold int_total. rewrite fmap_app.
  induction (int_value <$> s1) as [|z l IH]; simpl; [done|]. rewrite IH. lia.
Qed.

Lemma sum_int64_from (s : list (option number)) (a : Z) :
  foldl (fun acc c => match c with
                      | Some (Int64 z) | Some (PyInt z) => wrap64 (acc + z)
                      | _ => acc
                      end) (wrap64 a) s
  = wrap64 (a + int_total s).
Proof.
  revert a. induction s as [|c s IH]; intros a.
  - simpl. f_equal. unfold int_total. simpl. lia.
  - cbn [foldl]. unfold int_total. cbn [fmap list_fmap Zsum foldr].
    fold (fmap int_value s). fold (Zsum (int_value <$> s)). fold (int_total s).
    destruct c as [[z|z|f]|]; cbn [int_value].
    + rewrite wrap64_add_l, IH. f_equal. lia.
    + rewrite wrap64_add_l, IH. f_equal. lia.
    + rewrite IH. f_equal.
    + rewrite IH. f_equal.
Qed.

(** The sum of an integer column is the exact sum of its integers, reduced
    to 64 bits. *)
Lemma sum_int64_total (s : list (option number)) :
  sum_int64 s = wrap64 (int_total s).
Proof. exact (sum_int64_from s 0). Qed.

Lemma sum_cells_int64 (s : list (option number)) :
  is_int64 s = true → sum_cells s = Int64 (wrap64 (int_total s)).
Proof. intros Hs. unfold sum_cells, sum_as. by rewrite Hs, sum_int64_total. Qed.

Lemma is_int64_Forall (s : list (option number)) :
  is_int64 s = true ↔ Forall (fun c => int_cell c = true) s.
Proof.
  unfold is_int64. rewrite <- Is_true_true, forallb_True.
  apply Forall_iff. intros c. apply Is_true_true.
Qed.

Lemma is_int64_filter {A} (cell : A → option number) (P : A → Prop)
    `{∀ x, Decision (P x)} (l : list A) :
  is_int64 (cell <$> l) = true → is_int64 (cell <$> filter P l) = true.
Proof.
  rewrite !is_int64_Forall, !Forall_fmap. intros Hl.
  apply Forall_forall. intros x [_ Hx]%list_elem_of_filter.
  by apply (proj1 (Forall_forall _ _) Hl).
Qed.

Lemma Zsum_app (l1 l2 : list Z) : Zsum (l1 ++ l2) = (Zsum l1 + Zsum l2)%Z.
Proof. induction l1 as [|z l1 IH]; simpl; [done|]. rewrite IH. lia. Qed.

Lemma Zsum_Permutation (l1 l2 : list Z) : l1 ≡ₚ l2 → Zsum l1 = Zsum l2.
Proof. induction 1; simpl; lia. Qed.

Lemma wrap64_Zsum_wrap (l : list Z) :
  wrap64 (Zsum (wrap64 <$> l)) = wrap64 (Zsum l).
Proof.
  induction l as [|z l IH]; [done|]. cbn [fmap list_fmap Zsum foldr].
  fold (fmap wrap64 l). fold (Zsum (wrap64 <$> l)). fold (Zsum l).
  by rewrite wrap64_add_l, <- wrap64_add_r, IH, wrap64_add_r.
Qed.

Section GroupSums.
Context {K : Type} `{EqDecision K} (key : Row Z → option K)
        (cell : Row Z → option number).

(** The exact sum of the integers of the column over one group. *)
Let gtotal (kg : K * list (Row Z)) : Z := int_total (cell <$> kg.2).

Lemma Zsum_add_to_group k x acc :
  Zsum (gtotal <$> add_to_group k x acc)
  = (Zsum (gtotal <$> acc) + int_value (cell x))%Z.
Proof.
  induction acc as [|[k' g] acc IH]; simpl.
  - unfold gtotal, int_total. simpl. lia.
  - destruct (decide (k = k')); simpl.
    + unfold gtotal at 1 3. simpl. rewrite fmap_app, int_total_app.
      unfold int_total at 2. simpl. lia.
    + fold (fmap gtotal (add_to_group k x acc)). fold (fmap gtotal acc).
      fold (Zsum (gtotal <$> add_to_group k x acc)). fold (Zsum (gtotal <$> acc)).
      rewrite IH. lia.
Qed.

Lemma Zsum_groups l :
  Zsum (gtotal <$> groups key l)
  = int_total (cell <$> filter (fun r => is_Some (key r)) l).
Proof.
  induction l as [|x l IH] using rev_ind; [done|].
  rewrite groups_snoc, filter_app, fmap_app, int_total_app, filter_cons.
  destruct (key x) as [k|].
  - rewrite Zsum_add_to_group, IH, decide_True by (by eexists).
    unfold int_total at 3. simpl. lia.
  - rewrite IH, decide_False by (by intros [? ?]). unfold int_total at 3. simpl. lia.
Qed.

(** The groups partition the exact sum over the rows that have a key. *)
Lemma Zsum_groupby (leb : K → K → bool) l :
  Zsum (gtotal <$> groupby leb key l)
  = int_total (cell <$> filter (fun r => is_Some (key r)) l).
Proof.
  unfold groupby. rewrite <- Zsum_groups.
  apply Zsum_Permutation, fmap_Permutation, sort_by_Permutation.
Qed.
End GroupSums.

(** C8, as the code has it: for an integer column the per-group sums of
    [group_sums] add up, on 64 bits, to the sum of the column over the rows
    whose group field is present: both are the exact sum of these integers
    reduced to 64 bits.  When no row misses the group field, that is the sum
    over all rows. *)
Theorem group_sums_total (filtered_df : DataFrame Z)
    (key : Row Z → option string) (cell : Row Z → option number) :
  is_int64 (cell <$> rows filtered_df) = true →
  let keyed := filter (fun r => is_Some (key r)) (rows filtered_df) in
  sum_cells (Some <$> (group_sums filtered_df key cell).*2) = sum_cells (cell <$> keyed) ∧
  sum_cells (cell <$> keyed) = Int64 (wrap64 (int_total (cell <$> keyed))) ∧
  ((∀ r, r ∈ rows filtered_df → is_Some (key r)) →
   sum_cells (Some <$> (group_sums filtered_df key cell).*2)
   = sum_cells (cell <$> rows filtered_df)).
Proof.
  intros Hint keyed.
  assert (sum_cells (cell <$> keyed) = Int64 (wrap64 (int_total (cell <$> keyed))))
    as Hkeyed by (by apply sum_cells_int64, is_int64_filter).
  assert (Some <$> (group_sums filtered_df key cell).*2
          = (fun kg => Some (Int64 (wrap64 (int_total (cell <$> kg.2)))))
              <$> groupby String.leb key (rows filtered_df)) as Hgs.
  { unfold group_sums. rewrite <- !list_fmap_compose.
    apply list_fmap_ext. intros _ [k g] Hkg%list_elem_of_lookup_2. cbn.
    apply groupby_elem in Hkg as [_ ->]. f_equal.
    by apply sum_cells_int64, is_int64_filter. }
  assert (sum_cells (Some <$> (group_sums filtered_df key cell).*2)
          = sum_cells (cell <$> keyed)) as Htotal.
  { rewrite Hkeyed, Hgs, sum_cells_int64.
    - f_equal.
      transitivity (wrap64 (Zsum (wrap64 <$> ((fun kg => int_total (cell <$> kg.2))
                                    <$> groupby String.leb key (rows filtered_df))))).
      { unfold int_total at 1. by rewrite <- !list_fmap_compose. }
      rewrite wrap64_Zsum_wrap. f_equal. apply (Zsum_groupby key cell).
    - apply is_int64_Forall, Forall_fmap, Forall_forall. by intros [k g] _. }
  split_and!; [done..|]. intros Hall.
  rewrite Htotal. unfold keyed. by rewrite filter_all.
Qed.

(** ** Frequency tables, daily counts and visitor counts *)

Lemma Sorted_weaken {A} (R1 R2 : relation A) l :
  (∀ x y, R1 x y → R2 x y) → Sorted R1 l → Sorted R2 l.
Proof.
  intros HR. induction 1 as [|x l Hl IH Hx]; constructor; [done|].
  destruct Hx; constructor; auto.
Qed.

Lemma sum_list_fmap_with {A} (f : A → nat) l :
  sum_list (f <$> l) = sum_list_with f l.
Proof.
  induction l as [|x l IH]; [done|]. rewrite fmap_cons. simpl. by rewrite IH.
Qed.

Lemma sum_list_sizes {K A} (l : list (K * list A)) :
  sum_list (prod_map id length <$> l).*2 = sum_list_with (fun kg => length kg.2) l.
Proof.
  induction l as [|[k g] l IH]; [done|]. rewrite !fmap_cons. simpl. by rewrite <- IH.
Qed.

Lemma filter_fmap_length {A B} (f : A → B) (P : B → Prop)
    `{∀ y, Decision (P y)} (l : list A) :
  length (filter P (f <$> l)) = length (filter (fun x => P (f x)) l).
Proof.
  induction l as [|x l IH]; [done|]. rewrite fmap_cons, !filter_cons.
  destruct (decide (P (f x))); simpl; by rewrite IH.
Qed.

(** [value_counts] lists every value present once, with the number of
    cells that hold it, the larger numbers first; the numbers add up to the
    number of cells that are not missing. *)
Lemma value_counts_spec (s : list (option string)) :
  NoDup (value_counts s).*1 ∧
  (∀ v n, (v, n) ∈ value_counts s ↔ Some v ∈ s ∧ n = occurrences v s) ∧
  Sorted (fun x y => y.2 ≤ x.2) (value_counts s) ∧
  sum_list (value_counts s).*2 = length (filter is_Some s).
Proof.
  unfold value_counts. split_and!.
  - rewrite sort_by_Permutation.
    destruct (groups_spec id s) as (ks & Hnd & _ & ->).
    rewrite <- !list_fmap_compose, (list_fmap_ext _ id ks) by done.
    by rewrite list_fmap_id.
  - intros v n. rewrite sort_by_Permutation.
    destruct (groups_spec id s) as (ks & _ & Hks & ->).
    rewrite <- list_fmap_compose, list_elem_of_fmap. split.
    + intros (k & [= -> ->] & Hk). split; [|done].
      apply Hks in Hk as (x & Hx & Hid). unfold id in Hid. by subst x.
    + intros [Hv ->]. exists v. split; [done|]. apply Hks. by exists (Some v).
  - eapply Sorted_weaken; [|apply sort_by_Sorted].
    + intros x y Hxy. by apply bool_decide_eq_true in Hxy.
    + intros a b Hab. apply bool_decide_eq_false in Hab.
      apply bool_decide_eq_true. lia.
  - rewrite sort_by_Permutation, <- list_fmap_compose, sum_list_fmap_with.
    apply (groups_sizes id).
Qed.

(** X9: with the column in the schema, a frequency table (service requests,
    pages, products sold) holds one row per value present, with the number
    of records that carry it, the most frequent first, and the numbers add
    up to the number of records whose cell is not missing. *)
Theorem frequency_table_counts (filtered_df : DataFrame Z) c
    (cell : Row Z → option string) a b :
  c ∈ columns filtered_df →
  ∃ vc,
    frequency_table filtered_df c cell [a; b]
      = Ok (mkTable [a; b] ((fun kv => [JStr kv.1; JCount kv.2]) <$> vc)) ∧
    NoDup vc.*1 ∧
    (∀ v n, (v, n) ∈ vc ↔
       (∃ r, r ∈ rows filtered_df ∧ cell r = Some v) ∧
       n = length (filter (fun r => cell r = Some v) (rows filtered_df))) ∧
    Sorted (fun x y => y.2 ≤ x.2) vc ∧
    sum_list vc.*2 = length (filter (fun r => is_Some (cell r)) (rows filtered_df)).
Proof.
  intros Hc. exists (value_counts (cell <$> rows filtered_df)).
  destruct (value_counts_spec (cell <$> rows filtered_df)) as (Hnd & Hel & Hs & Hsum).
  split_and!; [|done| |done|].
  - unfold frequency_table, getitem, has_column. by rewrite bool_decide_true.
  - intros v n. rewrite Hel, list_elem_of_fmap. unfold occurrences.
    rewrite (filter_fmap_length cell (fun c => c = Some v)).
    split; intros [(r & H1 & H2) ->]; (split; [by exists r|done]).
  - rewrite Hsum. apply (filter_fmap_length cell is_Some).
Qed.

(** X10: after the Date column is assigned from the timestamps, the daily
    counts list each day present once, in calendar order, with the number
    of records of that day; the numbers add up to the number of records
    that have a timestamp. *)
Theorem daily_counts_spec (filtered_df dated : DataFrame Z) :
  assign_Date filtered_df = Ok dated →
  NoDup (daily_counts dated).*1 ∧
  Sorted Z.le (daily_counts dated).*1 ∧
  (∀ d n, (d, n) ∈ daily_counts dated ↔
     (∃ r, r ∈ rows filtered_df ∧ date_of <$> r.(Timestamp) = Some d) ∧
     n = length (filter (fun r => date_of <$> r.(Timestamp) = Some d)
                        (rows filtered_df))) ∧
  sum_list (daily_counts dated).*2
    = length (filter (fun r => is_Some r.(Timestamp)) (rows filtered_df)).
Proof.
  unfold assign_Date, getitem. destruct (has_column _ _); [|done].
  cbn [mbind result_bind]. intros [= <-]. unfold daily_counts. cbn [rows].
  split_and!.
  - rewrite <- list_fmap_compose.
    rewrite (list_fmap_ext _ fst (groupby Z.leb Date (with_Date <$> rows filtered_df)))
      by (by intros ? []).
    apply groupby_keys_NoDup.
  - rewrite <- list_fmap_compose.
    rewrite (list_fmap_ext _ fst (groupby Z.leb Date (with_Date <$> rows filtered_df)))
      by (by intros ? []).
    eapply Sorted_weaken; [|apply groupby_keys_Sorted].
    + intros x y. apply Z.leb_le.
    + intros x y Hxy. apply Z.leb_le. apply Z.leb_gt in Hxy. lia.
  - intros d n. rewrite list_elem_of_fmap. split.
    + intros ([k g] & Heq & Hkg). cbn in Heq. injection Heq as Hd Hn. subst d n.
      apply groupby_elem in Hkg as [(r & Hr & Hd) ->].
      apply list_elem_of_fmap in Hr as (r0 & -> & Hr0). split; [by exists r0|].
      unfold members.
      exact (filter_fmap_length with_Date (fun r => Date r = Some k) (rows filtered_df)).
    + intros [(r & Hr & Hd) ->].
      exists (d, members Date d (with_Date <$> rows filtered_df)). split.
      * cbn. f_equal. unfold members. symmetry.
        exact (filter_fmap_length with_Date (fun r => Date r = Some d) (rows filtered_df)).
      * apply groupby_elem. split; [|done]. exists (with_Date r).
        split; [by apply list_elem_of_fmap_2|done].
  - rewrite sum_list_sizes, (groupby_sizes Date Z.leb).
    rewrite (filter_fmap_length with_Date (fun r => is_Some (Date r))).
    f_equal. apply list_filter_iff. intros r. cbn. by rewrite fmap_is_Some.
Qed.





(** X12: the per-group sums of [group_sums] hold each group value present
    once, in alphabetical order, with the sum of the column over the rows of
    that group, as [sum_cells] computes it: on 64 bits for an integer
    column, in floats otherwise. *)
Theorem group_sums_per_group (filtered_df : DataFrame Z)
    (key : Row Z → option string) (cell : Row Z → option number) :
  NoDup (group_sums filtered_df key cell).*1 ∧
  Sorted (fun a b => String.leb a b = true) (group_sums filtered_df key cell).*1 ∧
  (∀ k v, (k, v) ∈ group_sums filtered_df key cell ↔
     (∃ r, r ∈ rows filtered_df ∧ key r = Some k) ∧
     v = sum_cells (cell <$> members key k (rows filtered_df))).
Proof.
  unfold group_sums. split_and!.
  - rewrite <- list_fmap_compose.
    rewrite (list_fmap_ext _ fst (groupby String.leb key (rows filtered_df)))
      by (by intros ? []).
    apply groupby_keys_NoDup.
  - rewrite <- list_fmap_compose.
    rewrite (list_fmap_ext _ fst (groupby String.leb key (rows filtered_df)))
      by (by intros ? []).
    apply groupby_keys_Sorted. intros a b Hab.
    destruct (String.leb_total a b) as [H|H]; congruence.
  - intros k v. rewrite list_elem_of_fmap. split.
    + intros ([k' g] & [= -> ->] & Hkg). by apply groupby_elem in Hkg as [Hk ->].
    + intros [Hk ->]. exists (k, members key k (rows filtered_df)). split; [done|].
      by apply groupby_elem.
Qed.

(** ** More on the filter engine *)

(** X5: whenever [filter_dataset] returns, the subset has the schema of the
    store and its records are records of the store in their order. *)
Theorem filter_dataset_narrows (df : DataFrame Z) (params : gmap string string)
    (subset : DataFrame Z) :
  filter_dataset df params = Ok subset →
  columns subset = columns df ∧
  sublist (rows subset) (rows df) ∧
  len subset ≤ len df.
Proof.
  rewrite filter_dataset_unfold. destruct (empty df).
  - intros [= <-]. by split_and!.
  - destruct (checks (columns df) params); [done|]. intros [= <-]. cbn.
    split_and!; [done|apply sublist_filter|apply length_filter].
Qed.

Lemma check_col_Some cols o c e :
  check_col cols o c = Some e → is_Some o ∧ c ∉ cols.
Proof.
  unfold check_col. destruct o; [|done]. case_bool_decide; [done|]. by eauto.
Qed.

Lemma check_date_Some cols o e :
  check_date cols o = Some e →
  ∃ v, o = Some v ∧ ("Timestamp" ∉ cols ∨ to_datetime v = None).
Proof.
  unfold check_date. destruct o as [v|]; [|done]. case_bool_decide.
  - destruct (to_datetime v) eqn:Hv; [done|]. eauto.
  - eauto.
Qed.

Lemma check_date_unparsed cols v :
  to_datetime v = None → is_Some (check_date cols (Some v)).
Proof.
  intros Hv. unfold check_date. rewrite Hv. by destruct (bool_decide _).
Qed.

Lemma or_else_Some a b e :
  or_else a b = Some e → a = Some e ∨ b = Some e.
Proof. destruct a; simpl; auto. Qed.

Ltac column_case k c H :=
  apply check_col_Some in H as [? ?]; left; exists k, c;
  split_and!; [key_listed|done|done|done].

Ltac date_case k H :=
  let v := fresh "v" in
  let Hg := fresh "Hg" in
  apply check_date_Some in H as (v & Hg & [?|?]);
  [ left; exists k, "Timestamp"; split_and!; [key_listed|done|by rewrite Hg|done]
  | right; exists k, v; split_and!; [|done|done] ].

Lemma checks_Some cols params e :
  checks cols params = Some e →
  (∃ k c, (k, c) ∈ filter_keys ∧ k ≠ "job_title" ∧
          is_Some (given params k) ∧ c ∉ cols) ∨
  (∃ k v, k ∈ ["start_date"; "end_date"] ∧ given params k = Some v ∧
          to_datetime v = None).
Proof.
  unfold checks. intros H.
  apply or_else_Some in H as [H|H].
  { date_case "start_date" H. apply list_elem_of_here. }
  apply or_else_Some in H as [H|H].
  { date_case "end_date" H. apply list_elem_of_further, list_elem_of_here. }
  apply or_else_Some in H as [H|H]; [column_case "country" "Country" H|].
  apply or_else_Some in H as [H|H]; [column_case "region" "Region" H|].
  apply or_else_Some in H as [H|H]; [column_case "city" "City" H|].
  apply or_else_Some in H as [H|H];
    [column_case "activity" "Request_Category" H|].
  column_case "sales_rep" "Sales_Rep" H.
Qed.

(** X6: [filter_dataset] raises exactly when the store is not empty and
    either a given key other than job_title names a column the schema
    lacks, or a given date bound cannot be parsed. *)
Theorem filter_dataset_raises_iff (df : DataFrame Z) (params : gmap string string) :
  (∃ e, filter_dataset df params = Err e) ↔
  empty df = false ∧
  ((∃ k c, (k, c) ∈ filter_keys ∧ k ≠ "job_title" ∧
           is_Some (given params k) ∧ c ∉ columns df) ∨
   (∃ k v, k ∈ ["start_date"; "end_date"] ∧ given params k = Some v ∧
           to_datetime v = None)).
Proof.
  split.
  - intros [e He]. rewrite filter_dataset_unfold in He.
    destruct (empty df); [done|]. split; [done|].
    destruct (checks (columns df) params) as [e'|] eqn:Hc; [|done].
    by eapply checks_Some.
  - intros [He [(k & c & Hk & Hj & Hg & Hc)|(k & v & Hk & Hg & Hv)]].
    + by eapply filter_dataset_missing_column.
    + rewrite filter_dataset_unfold, He.
      assert (is_Some (checks (columns df) params)) as [e ->]; [|by exists e].
      unfold checks.
      apply elem_of_cons in Hk as [->|Hk].
      { apply or_else_is_Some. left. rewrite Hg. by apply check_date_unparsed. }
      apply elem_of_cons in Hk as [->|Hk]; [|by apply elem_of_nil in Hk].
      apply or_else_is_Some. right. apply or_else_is_Some. left.
      rewrite Hg. by apply check_date_unparsed.
Qed.

Lemma filter_dataset_covered (df : DataFrame Z) (params : gmap string string) :
  schema_covers (columns df) params → dates_parse params →
  filter_dataset df params
  = Ok (mkDF (columns df) (filter (satisfies params) (rows df))).
Proof.
  intros Hs Hd. rewrite filter_dataset_unfold. destruct (empty df) eqn:He.
  - rewrite filter_all; [by rewrite frame_eta|]. intros r Hin.
    unfold empty in He. destruct (rows df) as [|r0 l].
    + by apply elem_of_nil in Hin.
    + destruct (columns df); [|done].
      by apply given_none_satisfies, covers_nil_empty.
  - rewrite checks_covered by done. cbn [guard]. do 2 f_equal.
    apply list_filter_iff. intros r. by apply keeps_covered.
Qed.

(** X8: two filters applied one after the other keep the records that
    satisfy both, whichever is applied first. *)
Theorem filter_dataset_commute (df : DataFrame Z) (p q : gmap string string) :
  schema_covers (columns df) p → dates_parse p →
  schema_covers (columns df) q → dates_parse q →
  (filter_dataset df p ≫= (fun subset => filter_dataset subset q))
    = Ok (mkDF (columns df)
               (filter (fun r => satisfies p r ∧ satisfies q r) (rows df))) ∧
  (filter_dataset df q ≫= (fun subset => filter_dataset subset p))
    = (filter_dataset df p ≫= (fun subset => filter_dataset subset q)).
Proof.
  intros Hsp Hdp Hsq Hdq.
  rewrite (filter_dataset_covered df p), (filter_dataset_covered df q) by done.
  cbn [mbind result_bind].
  rewrite !filter_dataset_covered by done. cbn [columns rows].
  rewrite !list_filter_filter. split.
  - do 2 f_equal. apply list_filter_iff. tauto.
  - do 2 f_equal. apply list_filter_iff. tauto.
Qed.

(** ** More on loading *)

Lemma filter_fmap_list {A B} (f : A → B) (P : B → Prop)
    `{∀ y, Decision (P y)} (l : list A) :
  filter P (f <$> l) = f <$> filter (fun x => P (f x)) l.
Proof.
  induction l as [|x l IH]; [done|]. rewrite fmap_cons, !filter_cons.
  destruct (decide (P (f x))); by rewrite ?fmap_cons, IH.
Qed.

Lemma elem_of_add_column c c' cols :
  c' ∈ add_column c cols ↔ c' = c ∨ c' ∈ cols.
Proof using Type.
  unfold add_column. case_bool_decide as Hc.
  - split; [by right|]. by intros [->|?].
  - rewrite elem_of_app, list_elem_of_singleton. split; intros [?|?]; auto.
Qed.

(** X1: [load_data] keeps, in their order, exactly the records of the file
    whose cell of the converted Timestamp column is an instant (a record
    whose cell pandas coerces to NaT is dropped), and the loaded schema has
    every column of the file together with Profit and Date. *)
Theorem load_data_keeps_parsable (csv : DataFrame string) (df : DataFrame Z) :
  load_data (Some csv) = Ok df →
  let converted := to_datetime_coerce (Timestamp <$> rows csv) in
  rows df = filter (fun r => is_Some r.(Timestamp))
                   (zip_with (load_row (columns csv)) (rows csv) converted) ∧
  (∀ r, r ∈ rows df ↔
        ∃ i raw t, rows csv !! i = Some raw ∧ converted !! i = Some (Some t) ∧
                   r = load_row (columns csv) raw (Some t)) ∧
  length (rows df) ≤ length (rows csv) ∧
  (∀ c, c ∈ columns csv → c ∈ columns df) ∧
  "Timestamp" ∈ columns df ∧ "Profit" ∈ columns df ∧ "Date" ∈ columns df.
Proof.
  intros Hl converted. apply load_data_rows in Hl as (Ht & Hc & Hr).
  fold converted in Hr.
  assert (rows df = filter (fun r => is_Some r.(Timestamp))
                      (zip_with (load_row (columns csv)) (rows csv) converted)) as Hrows.
  { rewrite Hr. apply filter_iff_in. intros r Hin.
    apply elem_of_zip_with in Hin as (raw & ts & -> & _ & _).
    cbn. by rewrite fmap_is_Some. }
  rewrite Hc. split_and!.
  - done.
  - intros r. rewrite Hrows, list_elem_of_filter, elem_of_lookup_zip_with. split.
    + intros [[t Hts] (i & raw & ts & -> & Hraw & Hconv)]. cbn in Hts. subst ts.
      by exists i, raw, t.
    + intros (i & raw & t & Hraw & Hconv & ->). split; [by eexists|].
      by exists i, raw, (Some t).
  - rewrite Hrows. etrans; [apply length_filter|]. rewrite length_zip_with. lia.
  - intros c Hin. rewrite !elem_of_add_column. auto.
  - rewrite !elem_of_add_column. auto.
  - rewrite !elem_of_add_column. auto.
  - rewrite !elem_of_add_column. auto.
Qed.

(** X3: when the file has a Job_Title column, every loaded record has a
    job title: the one of the file, or "Unknown" where the file has none. *)
Theorem load_data_job_title (csv : DataFrame string) (df : DataFrame Z) :
  load_data (Some csv) = Ok df →
  "Job_Title" ∈ columns csv →
  ∀ r, r ∈ rows df →
    ∃ raw, raw ∈ rows csv ∧
           r.(Job_Title) = Some (default "Unknown" raw.(Job_Title)).
Proof.
  intros Hl Hj r Hr. apply load_data_rows in Hl as (_ & _ & Hrows).
  rewrite Hrows in Hr. apply list_elem_of_filter in Hr as [_ Hr].
  apply elem_of_zip_with in Hr as (raw & ts & -> & Hraw & _).
  exists raw. split; [done|]. cbn. by rewrite bool_decide_true.
Qed.

(** X4: at start-up a missing file gives the empty store, but a file without
    a Timestamp column makes the module fail with a KeyError, since only
    the missing file is caught. *)
Theorem load_global_errors :
  load_global None = Ok blank ∧
  (∀ csv, "Timestamp" ∉ columns csv →
          load_global (Some csv) = Err (KeyError "Timestamp")) ∧
  (∀ csv, "Timestamp" ∈ columns csv →
          ∃ df, load_global (Some csv) = Ok df ∧ load_data (Some csv) = Ok df).
Proof.
  split_and!; [done| |].
  - intros csv Hc. unfold load_global, load_data, getitem, has_column.
    by rewrite bool_decide_false.
  - intros csv Hc. unfold load_global, load_data, getitem, has_column.
    rewrite bool_decide_true by done. cbn [mbind result_bind]. by eexists.
Qed.

(** ** The dashboard filter *)

Lemma zip_with_andb_fmap {A} (f g : A → bool) (l : list A) :
  zip_with andb (f <$> l) (g <$> l) = (fun x => f x && g x) <$> l.
Proof. induction l as [|x l IH]; [done|]. cbn. by rewrite <- IH. Qed.

Lemma day_bounds (s e t : Z) :
  (s ≤ date_of t ∧ date_of t ≤ e ↔
   s * ns_per_day ≤ t ∧ t < (e + 1) * ns_per_day)%Z.
Proof.
  unfold date_of.
  assert (0 < ns_per_day)%Z as Hpos by done.
  pose proof (Z.div_mod t ns_per_day) as Hdm.
  pose proof (Z.mod_pos_bound t ns_per_day Hpos) as Hmod.
  generalize dependent (t `div` ns_per_day)%Z.
  generalize dependent (t `mod` ns_per_day)%Z.
  generalize dependent ns_per_day. intros n Hn m Hm d Hd.
  specialize (Hd ltac:(lia)). nia.
Qed.

Lemma dashboard_filter_unfold (df_streamlit : DataFrame Z) (start_date end_date : Z)
    (selected_country : list string) :
  "Date" ∈ columns df_streamlit →
  (selected_country ≠ [] → "Country" ∈ columns df_streamlit) →
  dashboard_filter df_streamlit start_date end_date selected_country
  = Ok (mkDF (columns df_streamlit)
          (filter (fun r => (ge_cell start_date r.(Date) && le_cell end_date r.(Date))
                            ∧ (selected_country = []
                               ∨ isin_cell selected_country r.(Country)))
                  (rows df_streamlit))).
Proof.
  intros Hd Hc. unfold dashboard_filter, getitem, has_column.
  rewrite bool_decide_true by done. cbn [mbind result_bind].
  cbv zeta. rewrite zip_with_andb_fmap. unfold select. cbn [columns rows].
  rewrite select_rows_fmap2.
  destruct selected_country as [|c sel].
  - do 2 f_equal. apply list_filter_iff. intros r. tauto.
  - rewrite bool_decide_true by (by apply Hc). cbn [mbind result_bind].
    rewrite select_rows_fmap2, list_filter_filter.
    do 2 f_equal. apply list_filter_iff. intros r. split.
    + intros [? ?]. split; [done|by right].
    + intros [? [?|?]]; done.
Qed.

(** X19: on a loaded store the sidebar filter keeps, in their order, the
    records whose timestamp lies from the start of [start_date] to the end
    of [end_date] and, when countries are selected, whose country is one of
    them. *)
Theorem dashboard_filter_days (df_streamlit : DataFrame Z) (start_date end_date : Z)
    (selected_country : list string) :
  "Date" ∈ columns df_streamlit →
  (selected_country ≠ [] → "Country" ∈ columns df_streamlit) →
  (∀ r, r ∈ rows df_streamlit →
        ∃ t, r.(Timestamp) = Some t ∧ r.(Date) = Some (date_of t)) →
  ∃ filtered_df,
    dashboard_filter df_streamlit start_date end_date selected_country = Ok filtered_df ∧
    columns filtered_df = columns df_streamlit ∧
    sublist (rows filtered_df) (rows df_streamlit) ∧
    ∀ r, r ∈ rows filtered_df ↔
         r ∈ rows df_streamlit ∧
         (∃ t, r.(Timestamp) = Some t ∧
               (start_date * ns_per_day ≤ t ∧ t < (end_date + 1) * ns_per_day)%Z) ∧
         (selected_country = [] ∨ ∃ c, c ∈ selected_country ∧ r.(Country) = Some c).
Proof.
  intros Hd Hc Hloaded. eexists. split; [by apply dashboard_filter_unfold|].
  cbn [columns rows]. split_and!; [done|apply sublist_filter|].
  intros r. rewrite list_elem_of_filter. split.
  - intros [[Hdays Hsel] Hr]. split; [done|].
    destruct (Hloaded r Hr) as (t & Ht & Hdate). rewrite Hdate in Hdays.
    apply andb_True in Hdays as [H1 H2]. cbn in H1, H2.
    apply bool_decide_unpack in H1, H2. split.
    + exists t. split; [done|]. by apply day_bounds.
    + destruct Hsel as [?|Hsel]; [by left|right].
      unfold isin_cell in Hsel. destruct (Country r) as [c|]; [|done].
      exists c. split; [by apply bool_decide_unpack in Hsel|done].
  - intros (Hr & (t & Ht & Hb) & Hsel). split; [|done].
    destruct (Hloaded r Hr) as (t' & Ht' & Hdate). rewrite Hdate.
    assert (t' = t) as -> by congruence. apply day_bounds in Hb as [H1 H2].
    split.
    + apply andb_True. cbn. split; by apply bool_decide_pack.
    + destruct Hsel as [?|(c & Hin & Hcountry)]; [by left|right].
      rewrite Hcountry. cbn. by apply bool_decide_pack.
Qed.

(** ** The team-member view and the overview *)

Lemma individual_performance_total (member_data : DataFrame Z) :
  ∃ perf,
    individual_performance member_data = Ok perf ∧
    perf.(total_sales) = (if has_column member_data "Transaction_Amount"
                          then sum_cells (Transaction_Amount <$> rows member_data)
                          else PyInt 0) ∧
    perf.(total_revenue) = (if has_column member_data "Revenue"
                            then sum_cells (Revenue <$> rows member_data)
                            else PyInt 0).
Proof.
  unfold individual_performance. rewrite !column_sum_unfold.
  cbn [mbind result_bind].
  destruct (has_column member_data "Sales_Target") eqn:Hc; cbn [andb].
  - unfold getitem. rewrite Hc. destruct (rows member_data) as [|r l].
    + cbn. eexists. by split_and!.
    + cbn [fmap list_fmap forallb]. destruct (negb _); cbn; eexists; by split_and!.
  - cbn. eexists. by split_and!.
Qed.

Lemma filter_none {A} (P : A → Prop) `{∀ x, Decision (P x)} (l : list A) :
  (∀ x, x ∈ l → ¬ P x) → filter P l = [].
Proof.
  induction l as [|x l IH]; intros Hnone; [done|].
  rewrite filter_cons_False by (apply Hnone; left).
  apply IH. intros y Hy. apply Hnone. by right.
Qed.

Lemma filter_eq_unfold (dataframe : DataFrame Z) c cell v :
  c ∈ columns dataframe →
  filter_eq dataframe c cell v
  = Ok (mkDF (columns dataframe) (filter (fun r => cell r = Some v) (rows dataframe))).
Proof.
  intros Hc. unfold filter_eq, getitem, has_column. rewrite bool_decide_true by done.
  cbn [mbind result_bind]. unfold select. do 2 f_equal.
  rewrite select_rows_fmap2. apply list_filter_iff. intros r.
  unfold eq_cell. by rewrite bool_decide_spec.
Qed.

(** X18: the total sales the team-member view shows for a representative is
    the total the per-representative endpoint computes for the same
    records; a representative with no record gets no metrics. *)
Theorem member_view_matches_group_sums (filtered_df : DataFrame Z) (view_option : string) :
  "Sales_Rep" ∈ columns filtered_df →
  "Transaction_Amount" ∈ columns filtered_df →
  (∀ v, (view_option, v) ∈ group_sums filtered_df Sales_Rep Transaction_Amount →
        ∃ perf, member_view filtered_df view_option = Ok (Some perf) ∧
                perf.(total_sales) = v) ∧
  ((∀ r, r ∈ rows filtered_df → r.(Sales_Rep) ≠ Some view_option) →
   member_view filtered_df view_option = Ok None).
Proof.
  intros Hrep Hamt. unfold member_view.
  rewrite filter_eq_unfold by done. cbn [mbind result_bind]. split.
  - intros v Hv. unfold group_sums in Hv.
    apply list_elem_of_fmap in Hv as ([k g] & [= -> ->] & Hkg).
    apply groupby_elem in Hkg as [(r & Hr & Hk) ->]. fold (members Sales_Rep k (rows filtered_df)).
    assert (r ∈ members Sales_Rep k (rows filtered_df)) as Hin
      by (by apply list_elem_of_filter).
    set (member_data := mkDF (columns filtered_df) (members Sales_Rep k (rows filtered_df))).
    assert (empty member_data = false) as ->.
    { unfold empty, member_data. cbn [rows columns].
      destruct (members _ _ _); [by apply elem_of_nil in Hin|].
      destruct (columns filtered_df); [by apply elem_of_nil in Hrep|done]. }
    destruct (individual_performance_total member_data) as (perf & -> & Hs & _).
    cbn [mbind result_bind]. exists perf. split; [done|]. rewrite Hs.
    unfold has_column, member_data. cbn [columns rows]. by rewrite bool_decide_true.
  - intros Hnone. by rewrite filter_none.
Qed.

(** X20: the conversion rate of the overview and the conversion rate of the
    insights endpoint are the same number on every subset. *)
Theorem overview_conversion_rate_agrees (filtered_df : DataFrame Z) :
  ∃ api overview,
    conversion_rate filtered_df = Ok api ∧
    overview_conversion_rate filtered_df = Ok overview ∧
    (api == overview)%Q.
Proof.
  unfold conversion_rate, overview_conversion_rate, getitem.
  destruct (has_column filtered_df "Conversion_Status"); cbn [andb mbind result_bind].
  - case_bool_decide; do 2 eexists; by split_and!.
  - case_bool_decide; do 2 eexists; (split_and!; [done..|]); [|done].
    cbn. unfold Qdiv. by rewrite !Qmult_0_l.
Qed.

Lemma idxmax_sum_from_spec (best : string * number) (l : list (string * number)) :
  Forall (fun kv => ∃ z, kv.2 = Int64 z) (best :: l) →
  ∃ z, (idxmax_sum_from best l, Int64 z) ∈ best :: l ∧
       ∀ k' z', (k', Int64 z') ∈ best :: l → (z' ≤ z)%Z.
Proof.
  revert best. induction l as [|x l IH]; intros [kb vb] Hint.
  - apply Forall_cons in Hint as [[zb Hb] _]. cbn in Hb. subst vb.
    exists zb. split; [left|].
    intros k' z' Hin. apply list_elem_of_singleton in Hin.
    injection Hin as _ ->. lia.
  - apply Forall_cons in Hint as [[zb Hb] Hint]. cbn in Hb. subst vb.
    pose proof Hint as Hx. apply Forall_cons in Hx as [[zx Hx] Hl].
    destruct x as [kx vx]. cbn in Hx. subst vx. cbn [idxmax_sum_from fst snd number_ltb].
    destruct (zb <? zx)%Z eqn:Hlt.
    + apply Z.ltb_lt in Hlt. destruct (IH (kx, Int64 zx) Hint) as (w & Hin & Hmax).
      exists w. split; [by right|].
      intros k' z' Hin'. apply elem_of_cons in Hin' as [Heq|Hin'].
      { injection Heq as _ ->. pose proof (Hmax kx zx (list_elem_of_here _ _)). lia. }
      by apply (Hmax k').
    + apply Z.ltb_ge in Hlt.
      destruct (IH (kb, Int64 zb)) as (w & Hin & Hmax).
      { apply Forall_cons. split; [by exists zb|done]. }
      exists w. split.
      * apply elem_of_cons in Hin as [Heq|Hin]; [rewrite Heq; left|right; by right].
      * intros k' z' Hin'. apply elem_of_cons in Hin' as [Heq|Hin'].
        { apply (Hmax k'). rewrite Heq. left. }
        apply elem_of_cons in Hin' as [Heq|Hin'].
        { injection Heq as _ ->. pose proof (Hmax kb zb (list_elem_of_here _ _)). lia. }
        apply (Hmax k'). by right.
Qed.

Lemma idxmax_sum_spec (gs : list (string * number)) name :
  Forall (fun kv => ∃ z, kv.2 = Int64 z) gs →
  idxmax_sum gs = Ok name →
  ∃ z, (name, Int64 z) ∈ gs ∧ ∀ k' z', (k', Int64 z') ∈ gs → (z' ≤ z)%Z.
Proof.
  destruct gs as [|x l]; [done|]. intros Hint [= <-]. by apply idxmax_sum_from_spec.
Qed.

(** The group sums of an integer column are integers: the exact sum of the
    group reduced to 64 bits. *)
Lemma group_sums_int64 (filtered_df : DataFrame Z) key cell :
  is_int64 (cell <$> rows filtered_df) = true →
  Forall (fun kv => ∃ z, kv.2 = Int64 z) (group_sums filtered_df key cell).
Proof.
  intros Hint. apply Forall_forall. intros [k v] Hkv. unfold group_sums in Hkv.
  apply list_elem_of_fmap in Hkv as ([k' g] & [= -> ->] & Hkg).
  apply groupby_elem in Hkg as [_ ->]. eexists. cbn.
  by apply sum_cells_int64, is_int64_filter.
Qed.

Lemma group_sums_nil (filtered_df : DataFrame Z) key cell :
  group_sums filtered_df key cell = [] ↔
  ∀ r, r ∈ rows filtered_df → key r = None.
Proof.
  unfold group_sums. split.
  - intros Hnil%fmap_nil_inv r Hr. destruct (key r) as [k|] eqn:Hk; [|done]. exfalso.
    assert ((k, members key k (rows filtered_df))
            ∈ groupby String.leb key (rows filtered_df)) as Hin
      by (apply groupby_elem; eauto).
    rewrite Hnil in Hin. by apply elem_of_nil in Hin.
  - intros Hnone. destruct (groupby _ _ _) as [|[k g] l] eqn:Hg; [done|]. exfalso.
    assert ((k, g) ∈ groupby String.leb key (rows filtered_df)) as Hin
      by (rewrite Hg; left).
    apply groupby_elem in Hin as [(r & Hr & Hk) _]. by rewrite (Hnone r Hr) in Hk.
Qed.

(** X21: with both columns in the schema and a non-empty subset, the top
    sales representative of the overview on integer amounts is a
    representative whose transaction total, as the program has it on 64
    bits, no other total exceeds; the computation raises exactly when no
    record has a representative. *)
Theorem top_rep_maximal (filtered_df : DataFrame Z) :
  "Sales_Rep" ∈ columns filtered_df →
  "Transaction_Amount" ∈ columns filtered_df →
  empty filtered_df = false →
  (is_int64 (Transaction_Amount <$> rows filtered_df) = true →
   ∀ name, top_rep filtered_df = Ok name →
     ∃ z, (name, Int64 z) ∈ group_sums filtered_df Sales_Rep Transaction_Amount ∧
          ∀ k' v', (k', v') ∈ group_sums filtered_df Sales_Rep Transaction_Amount →
                   ∃ z', v' = Int64 z' ∧ (z' ≤ z)%Z) ∧
  ((∃ e, top_rep filtered_df = Err e) ↔
   ∀ r, r ∈ rows filtered_df → r.(Sales_Rep) = None).
Proof.
  intros Hrep Hamt He. unfold top_rep, has_column.
  rewrite !bool_decide_true, He by done. cbn [andb negb]. split.
  - intros Hint name Hname.
    pose proof (group_sums_int64 filtered_df Sales_Rep Transaction_Amount Hint) as Hall.
    destruct (idxmax_sum_spec _ _ Hall Hname) as (z & Hin & Hmax).
    exists z. split; [done|]. intros k' v' Hin'.
    destruct (proj1 (Forall_forall _ _) Hall _ Hin') as [z' Hz']. cbn in Hz'. subst v'.
    exists z'. split; [done|]. by apply (Hmax k').
  - rewrite <- (group_sums_nil filtered_df Sales_Rep Transaction_Amount).
    destruct (group_sums filtered_df Sales_Rep Transaction_Amount); simpl.
    + split; [done|]. by eexists.
    + split; [by intros [e ?]|done].
Qed.

(** X22: the top product and the top country of the overview raise a
    KeyError on a non-empty subset without a Revenue column; with an
    integer Revenue column, the answer is a group whose revenue, as the
    program has it on 64 bits, no other group exceeds. *)
Theorem top_by_revenue_maximal (filtered_df : DataFrame Z) c
    (key : Row Z → option string) :
  c ∈ columns filtered_df →
  empty filtered_df = false →
  ("Revenue" ∉ columns filtered_df →
   top_by_revenue filtered_df c key = Err (KeyError "Revenue")) ∧
  ("Revenue" ∈ columns filtered_df →
   is_int64 (Revenue <$> rows filtered_df) = true →
   ∀ name, top_by_revenue filtered_df c key = Ok name →
     ∃ z, (name, Int64 z) ∈ group_sums filtered_df key Revenue ∧
          ∀ k' v', (k', v') ∈ group_sums filtered_df key Revenue →
                   ∃ z', v' = Int64 z' ∧ (z' ≤ z)%Z).
Proof.
  intros Hc He. unfold top_by_revenue, has_column.
  rewrite (bool_decide_true (c ∈ _)), He by done. cbn [andb negb]. split.
  - intros Hr. by rewrite bool_decide_false.
  - intros Hr Hint name Hname. rewrite bool_decide_true in Hname by done.
    pose proof (group_sums_int64 filtered_df key Revenue Hint) as Hall.
    destruct (idxmax_sum_spec _ _ Hall Hname) as (z & Hin & Hmax).
    exists z. split; [done|]. intros k' v' Hin'.
    destruct (proj1 (Forall_forall _ _) Hall _ Hin') as [z' Hz']. cbn in Hz'. subst v'.
    exists z'. split; [done|]. by apply (Hmax k').
Qed.

(** ** The insight message *)





(** ** Frequency endpoints on a schema without their column *)

(** X15: on a non-empty subset, the page-access table, the top-products
    table and the per-representative table raise when the schema lacks the
    column they count or sum, whereas the customer-location breakdown
    answers with no rows. *)
Theorem tables_missing_column (df : DataFrame Z) (params : gmap string string)
    (filtered_df : DataFrame Z) :
  filter_dataset df params = Ok filtered_df →
  empty filtered_df = false →
  ("Page_Accessed" ∉ columns filtered_df →
   page_access df params = Err (ValueError "Length mismatch")) ∧
  ("Product_Name" ∉ columns filtered_df →
   top_products df params = Err (ValueError "Length mismatch")) ∧
  ("Product_Name" ∈ columns filtered_df → "Likes" ∉ columns filtered_df →
   top_products df params = Err (KeyError "Likes")) ∧
  ("Sales_Rep" ∉ columns filtered_df ∨ "Transaction_Amount" ∉ columns filtered_df →
   sales_by_rep df params = Err (ValueError "Length mismatch")) ∧
  (¬ Forall (fun c => c ∈ columns filtered_df)
            ["Country"; "Region"; "City"; "Product_Name"] →
   customer_locations df params = Ok (JArr [])).
Proof.
  intros Hf He. split_and!.
  - intros Hc. unfold page_access. rewrite Hf. cbn [mbind result_bind].
    by rewrite He, frequency_table_missing_column.
  - intros Hc. unfold top_products. rewrite Hf. cbn [mbind result_bind].
    by rewrite He, frequency_table_missing_column.
  - intros Hp Hl. unfold top_products, frequency_table, getitem, has_column.
    rewrite Hf. cbn [mbind result_bind]. rewrite He.
    rewrite (bool_decide_true ("Product_Name" ∈ _)) by done.
    by rewrite (bool_decide_false ("Likes" ∈ _)) by done.
  - intros Hc. unfold sales_by_rep, has_column. rewrite Hf. cbn [mbind result_bind].
    rewrite He.
    assert (bool_decide ("Sales_Rep" ∈ columns filtered_df)
            && bool_decide ("Transaction_Amount" ∈ columns filtered_df) = false) as ->.
    { apply andb_false_iff. destruct Hc; [left|right]; by apply bool_decide_eq_false. }
    done.
  - intros Hc. unfold customer_locations. rewrite Hf. cbn [mbind result_bind].
    rewrite He.
    assert (forallb (has_column filtered_df)
                    ["Country"; "Region"; "City"; "Product_Name"] = false) as ->; [|done].
    apply not_true_iff_false. intros Hall. apply Hc.
    apply Is_true_true, forallb_True in Hall.
    eapply Forall_impl; [done|]. intros c Hin. by apply bool_decide_unpack in Hin.
Qed.

(** ** The sign of a float sum *)

Lemma shr_1_nonneg mrs : (0 ≤ shr_m mrs)%Z → (0 ≤ shr_m (shr_1 mrs))%Z.
Proof. destruct mrs as [[|[p|p|]|p] r s]; simpl; lia. Qed.

Lemma iter_pos_shr_1_nonneg p mrs :
  (0 ≤ shr_m mrs)%Z → (0 ≤ shr_m (SpecFloat.iter_pos shr_1 p mrs))%Z.
Proof.
  revert mrs. induction p as [p IH|p IH|]; intros mrs Hm; simpl.
  - by apply IH, IH, shr_1_nonneg.
  - by apply IH, IH.
  - by apply shr_1_nonneg.
Qed.

Lemma shr_fexp_nonneg m e l :
  (0 ≤ m)%Z → (0 ≤ shr_m (shr_fexp prec emax m e l).1)%Z.
Proof.
  intros Hm. unfold shr_fexp, shr.
  assert (0 ≤ shr_m (shr_record_of_loc m l))%Z as Hr by (by destruct l as [|[]]).
  destruct (_ - e)%Z; simpl; [done| |done]. by apply iter_pos_shr_1_nonneg.
Qed.

Lemma round_nearest_even_nonneg m l :
  (0 ≤ m)%Z → (0 ≤ round_nearest_even m l)%Z.
Proof.
  intros Hm. destruct l as [|[]]; simpl; try lia. destruct (Z.even m); lia.
Qed.

(** Rounding a mantissa gives a zero, a finite float or an infinity of the
    sign asked for, never NaN. *)
Lemma binary_round_aux_signed sx m e l :
  (0 ≤ m)%Z → sf_signed sx (binary_round_aux prec emax sx m e l).
Proof.
  intros Hm. unfold binary_round_aux.
  pose proof (shr_fexp_nonneg m e l Hm) as H1.
  destruct (shr_fexp prec emax m e l) as [mrs' e']. simpl in H1.
  pose proof (shr_fexp_nonneg _ e' loc_Exact
                (round_nearest_even_nonneg _ (loc_of_shr_record mrs') H1)) as H2.
  destruct (shr_fexp prec emax _ e' loc_Exact) as [mrs'' e'']. simpl in H2.
  destruct (shr_m mrs''); [done| |lia].
  by destruct (_ <=? _)%Z.
Qed.

Lemma binary_normalize_signed m e :
  sf_signed (m <? 0)%Z (binary_normalize prec emax m e false).
Proof.
  destruct m as [|p|p]; simpl; [done|..];
    unfold binary_round; destruct (shl_align _ _ _) as [mz ez];
    by apply binary_round_aux_signed.
Qed.

(** Adding a float of strict sign [sx] to a float that is zero or of sign
    [sx] gives a float that is zero or of sign [sx]. *)
Lemma SF64add_signed sx x y :
  sf_signed sx x → sf_strict sx y → sf_signed sx (SF64add x y).
Proof.
  destruct x as [s|s| |s mx ex], y as [sy|sy| |sy my ey]; simpl; try done.
  - intros -> ->. by destruct sx.
  - intros -> ->. unfold SF64add, SFadd.
    pose proof (binary_normalize_signed
      (cond_Zopp sx (Z.pos (shl_align mx ex (Z.min ex ey)).1)
       + cond_Zopp sx (Z.pos (shl_align my ey (Z.min ex ey)).1))
      (Z.min ex ey)) as H.
    destruct sx; cbn [cond_Zopp Z.add Z.opp] in *; simpl (_ <? 0)%Z in H;
      by destruct (binary_normalize _ _ _ _ _).
Qed.

Lemma Prim2SF_zero : Prim2SF 0%float = S754_zero false.
Proof. by vm_compute. Qed.

Lemma ltb_0_strict f : (0 <? f)%float = true → sf_strict false (Prim2SF f).
Proof.
  rewrite ltb_spec, Prim2SF_zero. unfold SFltb.
  by destruct (Prim2SF f) as [s|[]| |[] m e].
Qed.

Lemma ltb_strict_0 f : (f <? 0)%float = true → sf_strict true (Prim2SF f).
Proof.
  rewrite ltb_spec, Prim2SF_zero. unfold SFltb.
  by destruct (Prim2SF f) as [s|[]| |[] m e].
Qed.

Lemma leb_0_signed f : sf_signed false (Prim2SF f) → (0 <=? f)%float = true.
Proof.
  rewrite leb_spec, Prim2SF_zero. unfold SFleb.
  by destruct (Prim2SF f) as [s|[]| |[] m e].
Qed.

Lemma leb_signed_0 f : sf_signed true (Prim2SF f) → (f <=? 0)%float = true.
Proof.
  rewrite leb_spec, Prim2SF_zero. unfold SFleb.
  by destruct (Prim2SF f) as [s|[]| |[] m e].
Qed.

(** A float sum of cells of one strict sign is zero or has that sign. *)
Lemma sum_float64_signed sx (s : list (option number)) :
  Forall (fun c => ∃ f, c = Some (Float64 f) ∧ sf_strict sx (Prim2SF f)) s →
  sf_signed sx (Prim2SF (sum_float64 s)).
Proof.
  unfold sum_float64.
  assert (sf_signed sx (Prim2SF 0%float)) as Hacc by (by rewrite Prim2SF_zero).
  revert Hacc. generalize 0%float as acc.
  induction s as [|c s IH]; intros acc Hacc Hs; [done|].
  apply Forall_cons in Hs as [(f & -> & Hf) Hs]. cbn [foldl to_float].
  apply IH; [|done]. rewrite add_spec. by apply SF64add_signed.
Qed.

Lemma float_cells_gt0 (s : list (option number)) :
  is_float64 s = true →
  Forall (fun c => ∃ f, c = Some (Float64 f) ∧ sf_strict false (Prim2SF f))
         (filter (fun c => gt0_cell c) s).
Proof.
  intros Hs. apply Is_true_true, forallb_True in Hs.
  apply Forall_forall. intros c [Hc Hin]%list_elem_of_filter.
  apply (proj1 (Forall_forall _ _) Hs) in Hin.
  destruct c as [[z|z|f]|]; try done. exists f. split; [done|].
  by apply ltb_0_strict, Is_true_true.
Qed.

Lemma float_cells_lt0 (s : list (option number)) :
  is_float64 s = true →
  Forall (fun c => ∃ f, c = Some (Float64 f) ∧ sf_strict true (Prim2SF f))
         (filter (fun c => lt0_cell c) s).
Proof.
  intros Hs. apply Is_true_true, forallb_True in Hs.
  apply Forall_forall. intros c [Hc Hin]%list_elem_of_filter.
  apply (proj1 (Forall_forall _ _) Hs) in Hin.
  destruct c as [[z|z|f]|]; try done. exists f. split; [done|].
  by apply ltb_strict_0, Is_true_true.
Qed.

Lemma is_float64_not_int64 (s : list (option number)) :
  s ≠ [] → is_float64 s = true → is_int64 s = false.
Proof.
  destruct s as [|c s]; [done|]. intros _. unfold is_float64, is_int64. cbn [forallb].
  by destruct c as [[z|z|f]|].
Qed.

(** What one metric is on a non-empty subset whose column is a float
    column or is absent. *)
Lemma sum_where_float (filtered_df : DataFrame Z) c cell test :
  rows filtered_df ≠ [] →
  float64_or_absent filtered_df c cell = true →
  (sum_where filtered_df c cell test ≫= jsonify_number)
  = Ok (float_sum_where filtered_df c cell test).
Proof.
  intros Hr Hf. rewrite sum_where_unfold. unfold float64_or_absent, float_sum_where in *.
  destruct (has_column filtered_df c); cbn in *; [|done].
  rewrite is_float64_not_int64; [done| |done].
  by intros ?%fmap_nil_inv.
Qed.

(** X23: on a non-empty filtered subset whose Transaction_Amount and
    Profit columns are float columns (or are absent), the sales metrics
    answer, with total_sales ≥ 0, total_profit ≥ 0 and total_loss ≤ 0: a
    float sum of amounts strictly greater than 0 is at least 0, however
    the additions round, and a float sum of amounts strictly less than 0
    is at most 0. *)
Theorem sales_metrics_float_signs (df : DataFrame Z) (params : gmap string string)
    (filtered_df : DataFrame Z) :
  filter_dataset df params = Ok filtered_df →
  empty filtered_df = false →
  float64_or_absent filtered_df "Transaction_Amount" Transaction_Amount = true →
  float64_or_absent filtered_df "Profit" Profit = true →
  ∃ total_sales total_profit total_loss,
    sales_metrics df params
      = Ok (JObj [("total_sales", total_sales);
                  ("total_profit", total_profit);
                  ("total_loss", total_loss)]) ∧
    json_nonneg total_sales ∧ json_nonneg total_profit ∧ json_nonpos total_loss.
Proof.
  intros Hf He Hamount Hprofit.
  assert (rows filtered_df ≠ []) as Hr.
  { unfold empty in He. by destruct (rows filtered_df). }
  exists (float_sum_where filtered_df "Transaction_Amount" Transaction_Amount gt0_cell),
         (float_sum_where filtered_df "Profit" Profit gt0_cell),
         (float_sum_where filtered_df "Profit" Profit lt0_cell).
  split_and!.
  - pose proof (sum_where_float filtered_df "Transaction_Amount" Transaction_Amount
                  gt0_cell Hr Hamount) as H1.
    pose proof (sum_where_float filtered_df "Profit" Profit gt0_cell Hr Hprofit) as H2.
    pose proof (sum_where_float filtered_df "Profit" Profit lt0_cell Hr Hprofit) as H3.
    unfold sales_metrics. rewrite Hf. cbn [mbind result_bind]. rewrite He.
    destruct (sum_where filtered_df "Transaction_Amount" _ _) as [ts|]; [|done].
    destruct (sum_where filtered_df "Profit" _ gt0_cell) as [tp|]; [|done].
    destruct (sum_where filtered_df "Profit" _ lt0_cell) as [tl|]; [|done].
    cbn [mbind result_bind] in *. by rewrite H1, H2, H3.
  - unfold float_sum_where, float64_or_absent in *.
    destruct (has_column filtered_df "Transaction_Amount"); cbn in *; [|done].
    by apply leb_0_signed, sum_float64_signed, float_cells_gt0.
  - unfold float_sum_where, float64_or_absent in *.
    destruct (has_column filtered_df "Profit"); cbn in *; [|done].
    by apply leb_0_signed, sum_float64_signed, float_cells_gt0.
  - unfold float_sum_where, float64_or_absent in *.
    destruct (has_column filtered_df "Profit"); cbn in *; [|done].
    by apply leb_signed_0, sum_float64_signed, float_cells_lt0.
Qed.

(** ** The sales metrics and the JSON encoder *)

(** X13: on a non-empty filtered subset the sales metrics raise a
    TypeError exactly when the Transaction_Amount or the Profit column of
    the subset is an integer column, because the encoder refuses the
    [numpy.int64] sum; otherwise each metric is the float sum of the cells
    it selects, or the Python 0 for a column the schema lacks. *)
Theorem sales_metrics_raises_iff (df : DataFrame Z) (params : gmap string string)
    (filtered_df : DataFrame Z) :
  filter_dataset df params = Ok filtered_df →
  empty filtered_df = false →
  let integers := int64_column filtered_df "Transaction_Amount" Transaction_Amount
                  || int64_column filtered_df "Profit" Profit in
  (integers = true → sales_metrics df params = Err int64_not_serializable) ∧
  (integers = false →
   sales_metrics df params
   = Ok (JObj [("total_sales",
                float_sum_where filtered_df "Transaction_Amount" Transaction_Amount
                                gt0_cell);
               ("total_profit", float_sum_where filtered_df "Profit" Profit gt0_cell);
               ("total_loss", float_sum_where filtered_df "Profit" Profit lt0_cell)])).
Proof.
  intros Hf He. unfold sales_metrics, int64_column, float_sum_where.
  rewrite Hf. cbn [mbind result_bind]. rewrite He, !sum_where_unfold.
  cbn [mbind result_bind].
  destruct (has_column filtered_df "Transaction_Amount"),
           (is_int64 (Transaction_Amount <$> rows filtered_df)),
           (has_column filtered_df "Profit"),
           (is_int64 (Profit <$> rows filtered_df)); by cbn.
Qed.

End Dashboard.

(** ** The program on the sample tables *)

(** C1: the store loaded from a file without a Service_Type column makes
    the service-request table raise instead of returning no rows, and a
    store whose Service_Type is recorded for no row makes the insights
    raise instead of reporting "N/A". *)
Theorem service_requests_missing_column_raises :
  load_data sample_to_datetime_coerce (Some csv_bare) = Ok df_bare ∧
  service_requests sample_to_datetime df_bare ∅
    = Err (ValueError "Length mismatch") ∧
  generate_insights sample_to_datetime df_no_service ∅
    = Err (ValueError "attempt to get argmax of an empty sequence").
Proof. by vm_compute. Qed.

(** C3: on the store loaded from a file with timestamps only, a country,
    region, city, activity or sales_rep parameter raises a KeyError; only
    the job_title parameter is ignored. *)
Theorem filter_dataset_missing_column_raises :
  filter_dataset sample_to_datetime df_bare {["country" := "X"]}
    = Err (KeyError "Country") ∧
  filter_dataset sample_to_datetime df_bare {["region" := "X"]}
    = Err (KeyError "Region") ∧
  filter_dataset sample_to_datetime df_bare {["city" := "X"]}
    = Err (KeyError "City") ∧
  filter_dataset sample_to_datetime df_bare {["activity" := "X"]}
    = Err (KeyError "Request_Category") ∧
  filter_dataset sample_to_datetime df_bare {["sales_rep" := "X"]}
    = Err (KeyError "Sales_Rep") ∧
  filter_dataset sample_to_datetime df_bare {["job_title" := "X"]} = Ok df_bare.
Proof. by vm_compute. Qed.

(** C2, as stated, fails for a job-title parameter on a store without a
    job-title column: the visits have none, the parameter is skipped and
    every visit is returned, although no visit has the job title
    "Engineer". *)
Lemma filter_dataset_job_title_skipped :
  let params : gmap string string := {["job_title" := "Engineer"]} in
  filter_dataset sample_to_datetime df_visits params = Ok df_visits ∧
  (∀ r, r ∈ rows df_visits → ¬ satisfies sample_to_datetime params r) ∧
  ¬ (∃ subset,
       filter_dataset sample_to_datetime df_visits params = Ok subset ∧
       ∀ r, r ∈ rows subset ↔
            r ∈ rows df_visits ∧ satisfies sample_to_datetime params r).
Proof.
  intros params.
  assert (filter_dataset sample_to_datetime df_visits params = Ok df_visits) as Hrun
    by (by vm_compute).
  assert (∀ r, r ∈ rows df_visits → ¬ satisfies sample_to_datetime params r) as Hnone.
  { intros r Hr (_ & _ & _ & _ & _ & _ & Hj & _).
    unfold df_visits in Hr. cbn [rows] in Hr.
    repeat (apply elem_of_cons in Hr as [->|Hr]); [discriminate Hj..|].
    by apply elem_of_nil in Hr. }
  split_and!; [done..|]. intros (subset & Hsub & Hiff).
  rewrite Hrun in Hsub. injection Hsub as <-.
  assert (entry (Some 0%Z) (Some 0%Z) (Some "X") None None None None (i64 0) None
          ∈ rows df_visits) as Hin by apply list_elem_of_here.
  apply (Hnone _ Hin). by apply Hiff.
Qed.

(** C2 at a sample: visits from country "X" on or after the second day,
    with a job-title parameter that the schema makes void. *)
Lemma filter_dataset_conjunction_witness :
  let params : gmap string string :=
    {["start_date" := "1970-01-02"; "country" := "X"; "job_title" := "Engineer"]} in
  columns_given (columns df_visits) params ∧
  dates_parse sample_to_datetime params ∧
  ∃ subset,
    filter_dataset sample_to_datetime df_visits params = Ok subset ∧
    columns subset = columns df_visits ∧
    rows subset
      = filter (keeps sample_to_datetime (columns df_visits) params) (rows df_visits) ∧
    (∀ r, r ∈ rows subset ↔
          r ∈ rows df_visits ∧ keeps sample_to_datetime (columns df_visits) params r) ∧
    sublist (rows subset) (rows df_visits) ∧
    length (rows subset) = 1.
Proof.
  intros params.
  assert (columns_given (columns df_visits) params) as Hs
    by (apply (bool_decide_unpack _); vm_compute; exact I).
  assert (dates_parse sample_to_datetime params) as Hd
    by (apply (bool_decide_unpack _); vm_compute; exact I).
  split; [exact Hs|]. split; [exact Hd|].
  destruct (filter_dataset_conjunction sample_to_datetime df_visits params Hs Hd)
    as (subset & H1 & H2 & H3 & H4 & H5 & _).
  exists subset. split; [exact H1|]. split; [exact H2|]. split; [exact H3|].
  split; [exact H4|]. split; [exact H5|].
  rewrite H3. vm_compute. reflexivity.
Defined.

(** C9 at a sample: no parameter at all. *)
Lemma filter_dataset_idempotent_identity_witness :
  all_keys_empty ∅ ∧ filter_dataset sample_to_datetime df_visits ∅ = Ok df_visits.
Proof.
  assert (all_keys_empty ∅) as He by (apply (bool_decide_unpack _); vm_compute; exact I).
  split; [exact He|].
  exact (proj2 (filter_dataset_idempotent_identity sample_to_datetime df_visits ∅) He).
Defined.

(** C4, as stated, fails for the total entry count: no visit is from
    country "Z", and the endpoint answers [{total_entries: 0}]. *)
Lemma total_entries_not_degraded :
  let params : gmap string string := {["country" := "Z"]} in
  filter_dataset sample_to_datetime df_visits params
    = Ok (mkDF (columns df_visits) []) ∧
  ¬ (∀ endpoint, endpoint ∈ metric_endpoints sample_to_datetime →
       ∃ j, endpoint df_visits params = Ok j ∧ degraded params j).
Proof.
  intros params. split; [by vm_compute|]. intros Hall.
  destruct (Hall (total_entries sample_to_datetime)) as (j & Hj & message & Hshape).
  { unfold metric_endpoints. apply list_elem_of_here. }
  vm_compute in Hj. subst j. discriminate Hj.
Qed.

(** C4 at a sample: the same request on every endpoint. *)
Lemma empty_subset_responses_witness :
  let params : gmap string string := {["country" := "Z"]} in
  let filtered_df := mkDF (columns df_visits) [] in
  filter_dataset sample_to_datetime df_visits params = Ok filtered_df ∧
  rows filtered_df = [] ∧
  (∀ endpoint,
     endpoint ∈ [sales_metrics sample_to_datetime; top_products sample_to_datetime;
                 customer_locations sample_to_datetime; page_access sample_to_datetime;
                 generate_insights sample_to_datetime; sales_by_rep sample_to_datetime] →
     ∃ j, endpoint df_visits params = Ok j ∧ degraded params j) ∧
  total_entries sample_to_datetime df_visits params
    = Ok (JObj [("total_entries", JNum 0)]) ∧
  unique_visitors sample_to_datetime df_visits params
    = Ok (JObj [("unique_visitors", JNum 0)]).
Proof.
  intros params filtered_df.
  assert (filter_dataset sample_to_datetime df_visits params = Ok filtered_df) as Hf
    by (vm_compute; reflexivity).
  assert (rows filtered_df = []) as Hr by reflexivity.
  destruct (empty_subset_responses sample_to_datetime df_visits params filtered_df Hf Hr)
    as (H1 & H2 & H3 & _).
  split; [exact Hf|]. split; [exact Hr|]. split; [exact H1|]. split; [exact H2|exact H3].
Defined.

(** C5, as stated, fails for a record whose revenue is missing: its profit
    is missing too, not 0. *)
Lemma profit_missing_value_not_zero :
  load_data sample_to_datetime_coerce (Some csv_gap) = Ok df_gap ∧
  ¬ (∀ r, r ∈ rows df_gap → r.(Profit) = profit_or_zero r).
Proof.
  split; [by vm_compute|]. intros Hall.
  specialize (Hall _ (list_elem_of_here _ _)). discriminate Hall.
Qed.

(** C5, as the code has it: when the file has both the revenue and the
    transaction-amount column, the profit of a loaded record is revenue
    minus transaction amount, missing when one of the two values is
    missing; when the file lacks one of the columns the profit is 0.  It
    is set by [load_data].  Loading transaction amounts [100, -20, 50] with
    revenues [150, -10, 70] gives profits [50, 10, 20], positive profits
    that add up to 80 and negative profits that add up to 0, whether the
    file writes the amounts as integers or with a decimal point; in the
    second case the sales metrics report them. *)
Theorem load_data_profit :
  (∀ to_datetime_coerce (csv : DataFrame string) (df : DataFrame Z),
     load_data to_datetime_coerce (Some csv) = Ok df →
     ∀ r, r ∈ rows df →
       r.(Profit) = if bool_decide ("Revenue" ∈ columns csv)
                       && bool_decide ("Transaction_Amount" ∈ columns csv)
                    then sub_cell r.(Revenue) r.(Transaction_Amount)
                    else Some (Int64 0)) ∧
  (load_data sample_to_datetime_coerce (Some csv_sales_int) = Ok df_sales_int ∧
   Transaction_Amount <$> rows df_sales_int = [i64 100; i64 (-20); i64 50] ∧
   Revenue <$> rows df_sales_int = [i64 150; i64 (-10); i64 70] ∧
   Profit <$> rows df_sales_int = [i64 50; i64 10; i64 20] ∧
   sum_where df_sales_int "Profit" Profit gt0_cell = Ok (Int64 80) ∧
   sum_where df_sales_int "Profit" Profit lt0_cell = Ok (Int64 0)) ∧
  (load_data sample_to_datetime_coerce (Some csv_sales) = Ok df_sales ∧
   Transaction_Amount <$> rows df_sales = [f64 100; f64 (-20); f64 50] ∧
   Revenue <$> rows df_sales = [f64 150; f64 (-10); f64 70] ∧
   Profit <$> rows df_sales = [f64 50; f64 10; f64 20] ∧
   sum_where df_sales "Profit" Profit gt0_cell = Ok (Float64 80) ∧
   sum_where df_sales "Profit" Profit lt0_cell = Ok (Float64 0) ∧
   sales_metrics sample_to_datetime df_sales ∅
     = Ok (JObj [("total_sales", JFloat 150);
                 ("total_profit", JFloat 80);
                 ("total_loss", JFloat 0)])).
Proof.
  split; [apply load_data_profit_rows|]. by vm_compute.
Qed.

(** C5 at a sample: the record without a revenue. *)
Lemma load_data_profit_witness :
  load_data sample_to_datetime_coerce (Some csv_gap) = Ok df_gap ∧
  ∀ r, r ∈ rows df_gap → r.(Profit) = None.
Proof.
  assert (load_data sample_to_datetime_coerce (Some csv_gap) = Ok df_gap) as Hl
    by (vm_compute; reflexivity).
  split; [exact Hl|]. intros r Hr.
  rewrite (proj1 load_data_profit sample_to_datetime_coerce csv_gap df_gap Hl r Hr).
  apply list_elem_of_singleton in Hr. subst r. reflexivity.
Defined.

(** C10: the three sales written as integers load into integer columns;
    their sums are [numpy.int64] values, which the JSON encoder refuses, so
    the sales metrics raise a TypeError instead of answering with
    total_sales 150, total_profit 80 and total_loss 0.  The store loaded
    from a file with timestamps only raises as well, its Profit column
    being the integer 0.  The same sales written with a decimal point are
    answered, with the signs the claim states. *)
Theorem sales_metrics_int64_raises :
  load_data sample_to_datetime_coerce (Some csv_sales_int) = Ok df_sales_int ∧
  filter_dataset sample_to_datetime df_sales_int ∅ = Ok df_sales_int ∧
  empty df_sales_int = false ∧
  sales_metrics sample_to_datetime df_sales_int ∅ = Err int64_not_serializable ∧
  sales_metrics sample_to_datetime df_bare ∅ = Err int64_not_serializable ∧
  sales_metrics sample_to_datetime df_sales ∅
    = Ok (JObj [("total_sales", JFloat 150);
                ("total_profit", JFloat 80);
                ("total_loss", JFloat 0)]).
Proof. by vm_compute. Qed.

(** C7: the slice has targets [missing, 500] and revenues [100, 200]; the
    first target present is 500, yet the dashboard takes the first row's
    target and reports a NaN target and a NaN achievement. *)
Theorem individual_performance_first_row_target :
  individual_performance member_rows
    = Ok {| total_sales := Float64 230; total_revenue := Float64 300;
            sales_target := None; achievement_pct := None |} ∧
  first_present (Sales_Target <$> rows member_rows) = Float64 500.
Proof. by vm_compute. Qed.

(** C8, as stated, fails when a row has no group value: the sale without a
    representative is in no group, the group sums add up to 7 and the
    column to 12.  It fails for float amounts too, where every row has its
    group: the group sums 0.1 and 0.2 + 0.3 add up to 0.6, the column to
    0.6000000000000001. *)
Lemma group_sums_skip_missing_key :
  sales_by_rep sample_to_datetime df_unassigned ∅
    = Ok (JArr [JObj [("Sales_Rep", JStr "Amber Lame"); ("Total_Sales", JNum 7)]]) ∧
  sum_cells (Some <$> (group_sums df_unassigned Sales_Rep Transaction_Amount).*2)
    = Int64 7 ∧
  sum_cells (Transaction_Amount <$> rows df_unassigned) = Int64 12 ∧
  ¬ (sum_cells (Some <$> (group_sums df_unassigned Sales_Rep Transaction_Amount).*2)
     = sum_cells (Transaction_Amount <$> rows df_unassigned)) ∧
  Forall (fun r => is_Some r.(Sales_Rep)) (rows df_tenths) ∧
  sum_cells (Some <$> (group_sums df_tenths Sales_Rep Transaction_Amount).*2)
    = Float64 0.6 ∧
  sum_cells (Transaction_Amount <$> rows df_tenths) = Float64 0.6000000000000001 ∧
  ¬ (sum_cells (Some <$> (group_sums df_tenths Sales_Rep Transaction_Amount).*2)
     = sum_cells (Transaction_Amount <$> rows df_tenths)).
Proof.
  split_and!; try (by vm_compute).
  apply (bool_decide_unpack _). by vm_compute.
Qed.

(** C8 at a sample: the two integer sales, one of them without a
    representative, and three integer sales that all have one. *)
Lemma group_sums_total_witness :
  is_int64 (Transaction_Amount <$> rows df_unassigned) = true ∧
  sum_cells (Some <$> (group_sums df_unassigned Sales_Rep Transaction_Amount).*2)
    = sum_cells (Transaction_Amount
                   <$> filter (fun r => is_Some r.(Sales_Rep)) (rows df_unassigned)) ∧
  is_int64 (Transaction_Amount <$> rows df_two_reps) = true ∧
  (∀ r, r ∈ rows df_two_reps → is_Some r.(Sales_Rep)) ∧
  sum_cells (Some <$> (group_sums df_two_reps Sales_Rep Transaction_Amount).*2)
    = sum_cells (Transaction_Amount <$> rows df_two_reps).
Proof.
  assert (is_int64 (Transaction_Amount <$> rows df_unassigned) = true) as H1
    by reflexivity.
  assert (is_int64 (Transaction_Amount <$> rows df_two_reps) = true) as H2
    by reflexivity.
  assert (∀ r, r ∈ rows df_two_reps → is_Some r.(Sales_Rep)) as Hall.
  { apply Forall_forall. apply (bool_decide_unpack _). vm_compute. exact I. }
  split; [exact H1|].
  split; [exact (proj1 (group_sums_total df_unassigned Sales_Rep Transaction_Amount H1))|].
  split; [exact H2|]. split; [exact Hall|].
  exact (proj2 (proj2 (group_sums_total df_two_reps Sales_Rep Transaction_Amount H2))
               Hall).
Defined.

(** When the dataset file is missing the store is the frame without
    columns: the total entry count answers 0, while the daily trend and the
    service-request table raise. *)
Lemma missing_file_responses :
  load_global sample_to_datetime_coerce None = Ok blank ∧
  total_entries sample_to_datetime blank ∅ = Ok (JObj [("total_entries", JNum 0)]) ∧
  unique_visitors sample_to_datetime blank ∅ = Ok (JObj [("unique_visitors", JNum 0)]) ∧
  trends sample_to_datetime blank ∅ = Err (KeyError "Timestamp") ∧
  service_requests sample_to_datetime blank ∅ = Err (ValueError "Length mismatch").
Proof. by vm_compute. Qed.

(** Counting the job titles A, B, A: two distinct values, A twice and B
    once, the more frequent first. *)
Lemma value_counts_sample :
  value_counts [Some "A"; Some "B"; Some "A"] = [("A", 2); ("B", 1)] ∧
  nunique [Some "A"; Some "B"; Some "A"] = 2.
Proof. by vm_compute. Qed.

(** ** Samples for the further properties *)

Ltac decided := apply (bool_decide_unpack _); vm_compute; exact I.

(** X1 at a sample: of three job requests, the one dated "yesterday" is
    dropped. *)
Lemma load_data_keeps_parsable_witness :
  load_data sample_to_datetime_coerce (Some csv_jobs) = Ok df_jobs ∧
  rows df_jobs
    = filter (fun r => is_Some r.(Timestamp))
             (zip_with (load_row (columns csv_jobs)) (rows csv_jobs)
                       (sample_to_datetime_coerce (Timestamp <$> rows csv_jobs))) ∧
  length (rows df_jobs) = 2 ∧
  length (rows df_jobs) ≤ length (rows csv_jobs) ∧
  "Job_Title" ∈ columns df_jobs.
Proof.
  assert (load_data sample_to_datetime_coerce (Some csv_jobs) = Ok df_jobs) as Hl
    by (vm_compute; reflexivity).
  destruct (load_data_keeps_parsable sample_to_datetime_coerce csv_jobs df_jobs Hl)
    as (Hr & _ & Hlen & Hc & _).
  split; [exact Hl|]. split; [exact Hr|]. split; [reflexivity|]. split; [exact Hlen|].
  apply Hc. decided.
Defined.

(** X2 at a sample: the three sales. *)
Lemma load_data_timestamps_witness :
  load_data sample_to_datetime_coerce (Some csv_sales) = Ok df_sales ∧
  ∀ r, r ∈ rows df_sales →
       ∃ t, r.(Timestamp) = Some t ∧ r.(Date) = Some (date_of t).
Proof.
  assert (load_data sample_to_datetime_coerce (Some csv_sales) = Ok df_sales) as Hl
    by (vm_compute; reflexivity).
  split; [exact Hl|].
  exact (load_data_timestamps sample_to_datetime_coerce csv_sales df_sales Hl).
Defined.

(** X3 at a sample: the request without a title becomes "Unknown". *)
Lemma load_data_job_title_witness :
  load_data sample_to_datetime_coerce (Some csv_jobs) = Ok df_jobs ∧
  "Job_Title" ∈ columns csv_jobs ∧
  ∀ r, r ∈ rows df_jobs →
       ∃ raw, raw ∈ rows csv_jobs ∧
              r.(Job_Title) = Some (default "Unknown" raw.(Job_Title)).
Proof.
  assert (load_data sample_to_datetime_coerce (Some csv_jobs) = Ok df_jobs) as Hl
    by (vm_compute; reflexivity).
  assert ("Job_Title" ∈ columns csv_jobs) as Hj by decided.
  split; [exact Hl|]. split; [exact Hj|].
  exact (load_data_job_title sample_to_datetime_coerce csv_jobs df_jobs Hl Hj).
Defined.

(** X4 at a sample: a file with a Revenue column only, and the file with
    timestamps only. *)
Lemma load_global_errors_witness :
  ("Timestamp" ∉ columns (mkDF (T := string) ["Revenue"] [])) ∧
  load_global sample_to_datetime_coerce (Some (mkDF ["Revenue"] []))
    = Err (KeyError "Timestamp") ∧
  "Timestamp" ∈ columns csv_bare ∧
  ∃ df, load_global sample_to_datetime_coerce (Some csv_bare) = Ok df ∧
        load_data sample_to_datetime_coerce (Some csv_bare) = Ok df.
Proof.
  assert ("Timestamp" ∉ columns (mkDF (T := string) ["Revenue"] [])) as H1 by decided.
  assert ("Timestamp" ∈ columns csv_bare) as H2 by decided.
  destruct (load_global_errors sample_to_datetime_coerce) as (_ & Hmissing & Hpresent).
  split; [exact H1|]. split; [exact (Hmissing _ H1)|]. split; [exact H2|].
  exact (Hpresent _ H2).
Defined.

(** X5 at a sample: the visits from country "X". *)
Lemma filter_dataset_narrows_witness :
  filter_dataset sample_to_datetime df_visits {["country" := "X"]} = Ok df_visits_X ∧
  columns df_visits_X = columns df_visits ∧
  sublist (rows df_visits_X) (rows df_visits) ∧
  len df_visits_X ≤ len df_visits.
Proof.
  assert (filter_dataset sample_to_datetime df_visits {["country" := "X"]}
          = Ok df_visits_X) as Hf by (vm_compute; reflexivity).
  split; [exact Hf|].
  exact (filter_dataset_narrows sample_to_datetime df_visits _ df_visits_X Hf).
Defined.

(** X7 at a sample: the visits have no Job_Title column. *)
Lemma filter_dataset_job_title_ignored_witness :
  ("Job_Title" ∉ columns df_visits) ∧
  filter_dataset sample_to_datetime df_visits {["job_title" := "Engineer"]}
    = filter_dataset sample_to_datetime df_visits
        (delete "job_title" {["job_title" := "Engineer"]}).
Proof.
  assert ("Job_Title" ∉ columns df_visits) as Hj by decided.
  split; [exact Hj|].
  exact (filter_dataset_job_title_ignored sample_to_datetime df_visits _ Hj).
Defined.

(** X8 at a sample: country "X" and a start date, in both orders. *)
Lemma filter_dataset_commute_witness :
  let p : gmap string string := {["country" := "X"]} in
  let q : gmap string string := {["start_date" := "1970-01-02"]} in
  schema_covers (columns df_visits) p ∧ dates_parse sample_to_datetime p ∧
  schema_covers (columns df_visits) q ∧ dates_parse sample_to_datetime q ∧
  (filter_dataset sample_to_datetime df_visits q
     ≫= (fun subset => filter_dataset sample_to_datetime subset p))
  = (filter_dataset sample_to_datetime df_visits p
       ≫= (fun subset => filter_dataset sample_to_datetime subset q)).
Proof.
  intros p q.
  assert (schema_covers (columns df_visits) p) as H1 by decided.
  assert (dates_parse sample_to_datetime p) as H2 by decided.
  assert (schema_covers (columns df_visits) q) as H3 by decided.
  assert (dates_parse sample_to_datetime q) as H4 by decided.
  split; [exact H1|]. split; [exact H2|]. split; [exact H3|]. split; [exact H4|].
  exact (proj2 (filter_dataset_commute sample_to_datetime df_visits p q H1 H2 H3 H4)).
Defined.

(** X9 at a sample: the countries of the visits. *)
Lemma frequency_table_counts_witness :
  "Country" ∈ columns df_visits ∧
  ∃ vc,
    frequency_table df_visits "Country" Country ["Country"; "Count"]
      = Ok (mkTable ["Country"; "Count"]
                    ((fun kv => [JStr kv.1; JCount kv.2]) <$> vc)) ∧
    NoDup vc.*1 ∧
    Sorted (fun x y => y.2 ≤ x.2) vc ∧
    sum_list vc.*2
      = length (filter (fun r => is_Some r.(Country)) (rows df_visits)).
Proof.
  assert ("Country" ∈ columns df_visits) as Hc by decided.
  split; [exact Hc|].
  destruct (frequency_table_counts df_visits "Country" Country "Country" "Count" Hc)
    as (vc & H1 & H2 & _ & H3 & H4).
  exists vc. split; [exact H1|]. split; [exact H2|]. split; [exact H3|exact H4].
Defined.

(** X10 at a sample: the visits, one a day for three days. *)
Lemma daily_counts_spec_witness :
  assign_Date df_visits = Ok df_visits ∧
  NoDup (daily_counts df_visits).*1 ∧
  Sorted Z.le (daily_counts df_visits).*1 ∧
  sum_list (daily_counts df_visits).*2
    = length (filter (fun r => is_Some r.(Timestamp)) (rows df_visits)).
Proof.
  assert (assign_Date df_visits = Ok df_visits) as Ha by (vm_compute; reflexivity).
  destruct (daily_counts_spec df_visits df_visits Ha) as (H1 & H2 & _ & H3).
  split; [exact Ha|]. split; [exact H1|]. split; [exact H2|exact H3].
Defined.


(** X13 at a sample: the three sales, written as integers and written with
    a decimal point. *)
Lemma sales_metrics_raises_iff_witness :
  filter_dataset sample_to_datetime df_sales_int ∅ = Ok df_sales_int ∧
  empty df_sales_int = false ∧
  sales_metrics sample_to_datetime df_sales_int ∅ = Err int64_not_serializable ∧
  filter_dataset sample_to_datetime df_sales ∅ = Ok df_sales ∧
  empty df_sales = false ∧
  sales_metrics sample_to_datetime df_sales ∅
    = Ok (JObj [("total_sales",
                 float_sum_where df_sales "Transaction_Amount" Transaction_Amount
                                 gt0_cell);
                ("total_profit", float_sum_where df_sales "Profit" Profit gt0_cell);
                ("total_loss", float_sum_where df_sales "Profit" Profit lt0_cell)]).
Proof.
  assert (filter_dataset sample_to_datetime df_sales_int ∅ = Ok df_sales_int) as Hi
    by (vm_compute; reflexivity).
  assert (filter_dataset sample_to_datetime df_sales ∅ = Ok df_sales) as Hf
    by (vm_compute; reflexivity).
  split; [exact Hi|]. split; [reflexivity|].
  split; [exact (proj1 (sales_metrics_raises_iff sample_to_datetime df_sales_int ∅
                          df_sales_int Hi eq_refl) eq_refl)|].
  split; [exact Hf|]. split; [reflexivity|].
  exact (proj2 (sales_metrics_raises_iff sample_to_datetime df_sales ∅ df_sales
                  Hf eq_refl) eq_refl).
Defined.

(** X23 at a sample: the three sales written with a decimal point. *)
Lemma sales_metrics_float_signs_witness :
  filter_dataset sample_to_datetime df_sales ∅ = Ok df_sales ∧
  empty df_sales = false ∧
  float64_or_absent df_sales "Transaction_Amount" Transaction_Amount = true ∧
  float64_or_absent df_sales "Profit" Profit = true ∧
  sales_metrics sample_to_datetime df_sales ∅
    = Ok (JObj [("total_sales", JFloat 150);
                ("total_profit", JFloat 80);
                ("total_loss", JFloat 0)]) ∧
  ∃ total_sales total_profit total_loss,
    sales_metrics sample_to_datetime df_sales ∅
      = Ok (JObj [("total_sales", total_sales);
                  ("total_profit", total_profit);
                  ("total_loss", total_loss)]) ∧
    json_nonneg total_sales ∧ json_nonneg total_profit ∧ json_nonpos total_loss.
Proof.
  assert (filter_dataset sample_to_datetime df_sales ∅ = Ok df_sales) as Hf
    by (vm_compute; reflexivity).
  split; [exact Hf|]. split; [reflexivity|]. split; [reflexivity|].
  split; [reflexivity|]. split; [vm_compute; reflexivity|].
  exact (sales_metrics_float_signs sample_to_datetime df_sales ∅ df_sales Hf
           eq_refl eq_refl eq_refl).
Defined.


(** X15 at a sample: the three sales have no page, product or
    representative column. *)
Lemma tables_missing_column_witness :
  filter_dataset sample_to_datetime df_sales ∅ = Ok df_sales ∧
  empty df_sales = false ∧
  ("Page_Accessed" ∉ columns df_sales) ∧
  page_access sample_to_datetime df_sales ∅ = Err (ValueError "Length mismatch") ∧
  ("Product_Name" ∉ columns df_sales) ∧
  top_products sample_to_datetime df_sales ∅ = Err (ValueError "Length mismatch").
Proof.
  assert (filter_dataset sample_to_datetime df_sales ∅ = Ok df_sales) as Hf
    by (vm_compute; reflexivity).
  assert (empty df_sales = false) as He by reflexivity.
  assert ("Page_Accessed" ∉ columns df_sales) as H1 by decided.
  assert ("Product_Name" ∉ columns df_sales) as H2 by decided.
  destruct (tables_missing_column sample_to_datetime df_sales ∅ df_sales Hf He)
    as (Hpage & Hprod & _).
  split; [exact Hf|]. split; [exact He|]. split; [exact H1|].
  split; [exact (Hpage H1)|]. split; [exact H2|exact (Hprod H2)].
Defined.

(** X16 at a sample: a slice whose first row carries the target 500; the
    revenues 100 and 200 make 60 percent of it. *)
Lemma individual_performance_first_row_witness :
  "Sales_Target" ∈ columns member_rows_target ∧
  ∃ perf,
    individual_performance member_rows_target = Ok perf ∧
    perf.(total_sales) = Float64 230 ∧
    perf.(total_revenue) = Float64 300 ∧
    perf.(sales_target) = Some (Float64 500) ∧
    perf.(achievement_pct) = Some (Float64 60).
Proof.
  assert ("Sales_Target" ∈ columns member_rows_target) as Hc by decided.
  split; [exact Hc|].
  destruct (individual_performance_first_row member_rows_target _ _ (Float64 500)
              eq_refl eq_refl Hc) as (perf & H1 & H2 & H3 & _ & H4 & H5).
  exists perf. split; [exact H1|]. split; [exact H2|]. split; [exact H3|].
  split; [exact H4|]. rewrite H5, H3. reflexivity.
Defined.

(** X17 at a sample: a table without a Sales_Target column. *)
Lemma individual_performance_no_target_witness :
  ("Sales_Target" ∉ columns df_unassigned) ∧
  ∃ perf,
    individual_performance df_unassigned = Ok perf ∧
    perf.(sales_target) = Some (PyInt 0) ∧ perf.(achievement_pct) = Some (PyInt 0).
Proof.
  assert ("Sales_Target" ∉ columns df_unassigned) as Hc by decided.
  split; [exact Hc|].
  exact (individual_performance_no_target df_unassigned (or_introl Hc)).
Defined.

(** X18 at a sample: the slice of Amber Lame. *)
Lemma member_view_matches_group_sums_witness :
  "Sales_Rep" ∈ columns member_rows ∧
  "Transaction_Amount" ∈ columns member_rows ∧
  ("Amber Lame", Float64 230) ∈ group_sums member_rows Sales_Rep Transaction_Amount ∧
  ∃ perf, member_view member_rows "Amber Lame" = Ok (Some perf) ∧
          perf.(total_sales) = Float64 230.
Proof.
  assert ("Sales_Rep" ∈ columns member_rows) as H1 by decided.
  assert ("Transaction_Amount" ∈ columns member_rows) as H2 by decided.
  assert (("Amber Lame", Float64 230)
          ∈ group_sums member_rows Sales_Rep Transaction_Amount) as H3.
  { assert (group_sums member_rows Sales_Rep Transaction_Amount
            = [("Amber Lame", Float64 230)]) as -> by (vm_compute; reflexivity).
    apply list_elem_of_here. }
  split; [exact H1|]. split; [exact H2|]. split; [exact H3|].
  exact (proj1 (member_view_matches_group_sums member_rows "Amber Lame" H1 H2) _ H3).
Defined.

(** X19 at a sample: the visits of the second and third day from
    country "X". *)
Lemma dashboard_filter_days_witness :
  "Date" ∈ columns df_visits ∧
  "Country" ∈ columns df_visits ∧
  (∀ r, r ∈ rows df_visits →
        ∃ t, r.(Timestamp) = Some t ∧ r.(Date) = Some (date_of t)) ∧
  ∃ filtered_df,
    dashboard_filter df_visits 1 2 ["X"] = Ok filtered_df ∧
    columns filtered_df = columns df_visits ∧
    sublist (rows filtered_df) (rows df_visits).
Proof.
  assert ("Date" ∈ columns df_visits) as H1 by decided.
  assert ("Country" ∈ columns df_visits) as H2 by decided.
  assert (∀ r, r ∈ rows df_visits →
            ∃ t, r.(Timestamp) = Some t ∧ r.(Date) = Some (date_of t)) as H3.
  { intros r Hr. unfold df_visits in Hr. cbn [rows] in Hr.
    repeat (apply elem_of_cons in Hr as [->|Hr]);
      [eexists; split; reflexivity..|].
    exfalso. exact (proj1 (elem_of_nil _) Hr). }
  split; [exact H1|]. split; [exact H2|]. split; [exact H3|].
  destruct (dashboard_filter_days df_visits 1 2 ["X"] H1 (fun _ => H2) H3)
    as (filtered_df & Hf & Hc & Hs & _).
  exists filtered_df. split; [exact Hf|]. split; [exact Hc|exact Hs].
Defined.

(** X21 at a sample: Amber Lame sold for 7, Bo Chen for 5 and 6. *)
Lemma top_rep_maximal_witness :
  "Sales_Rep" ∈ columns df_two_reps ∧
  "Transaction_Amount" ∈ columns df_two_reps ∧
  empty df_two_reps = false ∧
  is_int64 (Transaction_Amount <$> rows df_two_reps) = true ∧
  group_sums df_two_reps Sales_Rep Transaction_Amount
    = [("Amber Lame", Int64 7); ("Bo Chen", Int64 11)] ∧
  top_rep df_two_reps = Ok "Bo Chen" ∧
  ∃ z, ("Bo Chen", Int64 z) ∈ group_sums df_two_reps Sales_Rep Transaction_Amount ∧
       ∀ k' v', (k', v') ∈ group_sums df_two_reps Sales_Rep Transaction_Amount →
                ∃ z', v' = Int64 z' ∧ (z' ≤ z)%Z.
Proof.
  assert ("Sales_Rep" ∈ columns df_two_reps) as H1 by decided.
  assert ("Transaction_Amount" ∈ columns df_two_reps) as H2 by decided.
  assert (empty df_two_reps = false) as H3 by reflexivity.
  assert (is_int64 (Transaction_Amount <$> rows df_two_reps) = true) as H4
    by reflexivity.
  assert (top_rep df_two_reps = Ok "Bo Chen") as H5 by (vm_compute; reflexivity).
  split; [exact H1|]. split; [exact H2|]. split; [exact H3|]. split; [exact H4|].
  split; [vm_compute; reflexivity|]. split; [exact H5|].
  exact (proj1 (top_rep_maximal df_two_reps H1 H2 H3) H4 _ H5).
Defined.

(** X22 at a sample: the visits have a Country column and no Revenue;
    of the three sales, country "X" has revenue 10 and country "Y" 9 and
    8. *)
Lemma top_by_revenue_maximal_witness :
  "Country" ∈ columns df_visits ∧
  empty df_visits = false ∧
  ("Revenue" ∉ columns df_visits) ∧
  top_by_revenue df_visits "Country" Country = Err (KeyError "Revenue") ∧
  "Country" ∈ columns df_two_reps ∧
  empty df_two_reps = false ∧
  "Revenue" ∈ columns df_two_reps ∧
  is_int64 (Revenue <$> rows df_two_reps) = true ∧
  group_sums df_two_reps Country Revenue = [("X", Int64 10); ("Y", Int64 17)] ∧
  top_by_revenue df_two_reps "Country" Country = Ok "Y" ∧
  ∃ z, ("Y", Int64 z) ∈ group_sums df_two_reps Country Revenue ∧
       ∀ k' v', (k', v') ∈ group_sums df_two_reps Country Revenue →
                ∃ z', v' = Int64 z' ∧ (z' ≤ z)%Z.
Proof.
  assert ("Country" ∈ columns df_visits) as H1 by decided.
  assert (empty df_visits = false) as H2 by reflexivity.
  assert ("Revenue" ∉ columns df_visits) as H3 by decided.
  assert ("Country" ∈ columns df_two_reps) as H4 by decided.
  assert (empty df_two_reps = false) as H5 by reflexivity.
  assert ("Revenue" ∈ columns df_two_reps) as H6 by decided.
  assert (is_int64 (Revenue <$> rows df_two_reps) = true) as H7 by reflexivity.
  assert (top_by_revenue df_two_reps "Country" Country = Ok "Y") as H8
    by (vm_compute; reflexivity).
  split; [exact H1|]. split; [exact H2|]. split; [exact H3|].
  split; [exact (proj1 (top_by_revenue_maximal df_visits "Country" Country H1 H2) H3)|].
  split; [exact H4|]. split; [exact H5|]. split; [exact H6|]. split; [exact H7|].
  split; [vm_compute; reflexivity|]. split; [exact H8|].
  exact (proj2 (top_by_revenue_maximal df_two_reps "Country" Country H4 H5) H6 H7 _ H8).
Defined.
